(** * mcp_telegram.tools: the tool registry, its handlers and their sessions

    A shallow embedding of [src/mcp_telegram/tools.py].  Handlers are
    [async] functions that talk to a remote chat service through a client;
    they are embedded as computations of a small monad that threads the
    trace of observable events (session acquire / release, remote calls,
    files written) and may end in a raised failure.  The remote service and
    the file system are collaborators: their answers are the fields of an
    environment record [Env], over which every statement quantifies. *)

From stdpp Require Import base strings list gmap pretty.

Local Open Scope string_scope.
Local Open Scope Z_scope.
Local Open Scope list_scope.

(** ** Failures *)

(** The classes of the failures that occur in the module.  [CancelledError]
    derives from [BaseException] only; the others derive from
    [Exception] ([ValidationError], raised by [pydantic] models such as
    those of the [mcp] package, through [ValueError]). *)
Inductive ExnClass : Set :=
| ConnectionError
| ValueError
| TypeError
| UnboundLocalError
| KeyError
| NotImplementedError
| AttributeError
| OSError
| RPCError
| ValidationError
| CancelledError.

Record Exn : Set := mkExn { exn_class : ExnClass; exn_str : string }.

(** [isinstance(e, Exception)], the test of [except Exception]. *)
Definition is_Exception (e : Exn) : bool :=
  match exn_class e with
  | CancelledError => false
  | _ => true
  end.

Inductive Outcome (A : Type) : Type :=
| Return (a : A)
| Raise (e : Exn).
Arguments Return {A} a.
Arguments Raise {A} e.

(** ** Values exchanged with the remote service *)

(** [telethon.custom.dialog.Dialog], as far as [list_dialogs] reads it. *)
Module Dialog.
Record t : Set := mk {
  name : string;
  id : Z;
  unread_count : Z;
  unread_mentions_count : Z
}.
End Dialog.

(** [telethon.types.Dialog], an element of [PeerDialogs.dialogs]. *)
Module TLDialog.
Record t : Set := mk {
  peer : Z;
  unread_count : Z
}.
End TLDialog.

(** The sender of a message; [username] is [None] for a user without one. *)
Module Sender.
Record t : Set := mk { username : option string }.
End Sender.

(** [telethon.custom.Message].  [text] is [None] or a string; [date] holds
    the ISO rendering of the date, when the message has one. *)
Module Message.
Record t : Set := mk {
  text : option string;
  date : option string;
  sender_id : option Z;
  sender : option Sender.t
}.
End Message.

(** What an iteration over messages may deliver: a [custom.Message] or an
    object of another class. *)
Inductive Item : Set :=
| ItemMessage (m : Message.t)
| ItemOther (cls : string).

Module PeerDialogs.
Record t : Set := mk {
  dialogs : list TLDialog.t;
  messages : list Item
}.
End PeerDialogs.

(** The reply to [GetPeerDialogsRequest]: a falsy value, a [PeerDialogs],
    or a truthy object of another type (given by the text of its type). *)
Inductive PeerReply : Set :=
| ReplyFalsy
| ReplyPeerDialogs (r : PeerDialogs.t)
| ReplyOther (type_repr : string).

(** An asynchronous iterator: the items it yields, then either exhaustion
    or a failure. *)
Record Stream (A : Type) : Type := mkStream {
  yielded : list A;
  failure : option Exn
}.
Arguments mkStream {A} yielded failure.
Arguments yielded {A} s.
Arguments failure {A} s.

(** The [entity] argument of [iter_messages]: an id, or a resolved entity
    (identified by the id it was resolved from). *)
Inductive EntityRef : Set :=
| ById (dialog_id : Z)
| Resolved (group_id : Z).

(** The keyword arguments of [client.iter_messages]; [None] is a keyword
    that is not passed. *)
Module IterMessagesArgs.
Record t : Set := mk {
  entity : EntityRef;
  reverse : option bool;
  limit : option Z
}.
End IterMessagesArgs.

(** ** Content items returned by the handlers *)

(** [mcp.types.TextContent]: the fields [type] and [text] of an item.
    [TextContent.mk (Some "text") text] is the item that
    [TextContent(type="text", text=text)] builds.  What
    [TextContent(text=text)], without the [type] keyword, does is decided by
    the [mcp] package installed (field [text_content_without_type] of
    [Env]). *)
Module TextContent.
Record t : Set := mk { type : option string; text : string }.
End TextContent.

(** A record collected by [search_hashtags]. *)
Module Hit.
Record t : Set := mk {
  date : string;
  user_id : option Z;
  username : option string;
  message : string;
  hashtag : string
}.
End Hit.

(** What an export writes: the CSV writer's field names and rows, or the
    lines of the text report. *)
Inductive FileDoc : Set :=
| CsvDoc (fieldnames : list string) (rows : list Hit.t)
| TxtDoc (lines : list string).

(** ** Observable events and the handler monad *)

Inductive Event : Set :=
| EvAcquire
| EvRelease
| EvIterDialogs (archived ignore_pinned : bool)
| EvGetPeerDialogs (peers : list Z)
| EvIterMessages (a : IterMessagesArgs.t)
| EvGetEntity (group_id : Z)
| EvWriteFile (path : string) (doc : FileDoc).

Definition Trace : Set := list Event.

Definition M (A : Type) : Type := Trace -> Outcome A * Trace.

Definition ret {A} (a : A) : M A := fun tr => (Return a, tr).

Definition raise {A} (e : Exn) : M A := fun tr => (Raise e, tr).

Definition bind {A B} (m : M A) (k : A -> M B) : M B :=
  fun tr =>
    match m tr with
    | (Return a, tr') => k a tr'
    | (Raise e, tr') => (Raise e, tr')
    end.

Definition emit (ev : Event) : M unit := fun tr => (Return tt, tr ++ [ev]).

Notation "'let*' x ':=' m 'in' k" := (bind m (fun x => k))
  (at level 10, x name, m at level 100, k at level 200).
Notation "'do*' m 'in' k" := (bind m (fun _ => k))
  (at level 10, m at level 100, k at level 200).

(** [try: body  except Exception as e: handler e]. *)
Definition try_except_Exception {A} (body : M A) (handler : Exn -> M A) : M A :=
  fun tr =>
    match body tr with
    | (Return a, tr') => (Return a, tr')
    | (Raise e, tr') => if is_Exception e then handler e tr' else (Raise e, tr')
    end.

(** A [for] loop whose body updates the loop-carried state [S]. *)
Fixpoint for_each {A S} (body : S -> A -> M S) (xs : list A) (s : S) : M S :=
  match xs with
  | [] => ret s
  | x :: xs' => let* s' := body s x in for_each body xs' s'
  end.

(** [async for x in stream: body]. *)
Definition async_for {A S} (st : Stream A) (body : S -> A -> M S) (s : S) : M S :=
  let* s' := for_each body (yielded st) s in
  match failure st with
  | Some e => raise e
  | None => ret s'
  end.

(** Runs a handler from the empty trace. *)
Definition run {A} (m : M A) : Outcome A * Trace := m [].

Definition is_acquire (ev : Event) : bool :=
  match ev with EvAcquire => true | _ => false end.

Definition is_release (ev : Event) : bool :=
  match ev with EvRelease => true | _ => false end.

(** The counters of a session provider that counts its calls. *)
Definition acquired (tr : Trace) : nat := length (List.filter is_acquire tr).

Definition released (tr : Trace) : nat := length (List.filter is_release tr).

(** [try: body  finally: cleanup]: the cleanup runs on every exit of the
    body, and the body's outcome is kept. *)
Definition try_finally {A} (body : M A) (cleanup : M unit) : M A :=
  fun tr =>
    match body tr with
    | (r, tr') =>
        match cleanup tr' with
        | (Return _, tr'') => (r, tr'')
        | (Raise e, tr'') => (Raise e, tr'')
        end
    end.

(** ** Python helpers *)

(** Truth value of [message.text]: neither [None] nor the empty string. *)
Definition truthy_text (t : option string) : bool :=
  match t with
  | Some s => negb (String.eqb s "")
  | None => false
  end.

(** [str(x)] for an [int]. *)
Definition str_int (x : Z) : string := pretty x.

(** [str(x)] for a value that is [None] or carries a rendering. *)
Definition str_or_None {A} (str : A -> string) (x : option A) : string :=
  match x with
  | Some a => str a
  | None => "None"
  end.

(** [s * n] on strings. *)
Fixpoint str_repeat (s : string) (n : nat) : string :=
  match n with
  | O => ""
  | S n' => s +:+ str_repeat s n'
  end.

(** [needle in hay] on strings. *)
Fixpoint str_contains (needle hay : string) : bool :=
  String.prefix needle hay ||
  match hay with
  | EmptyString => false
  | String _ hay' => str_contains needle hay'
  end.

(** [sep.join(l)]. *)
Fixpoint str_join (sep : string) (l : list string) : string :=
  match l with
  | [] => ""
  | [x] => x
  | x :: l' => x +:+ sep +:+ str_join sep l'
  end.

Definition newline : string := String (Ascii.ascii_of_nat 10) EmptyString.

(** ** Argument types *)

Module ListDialogs.
Record t : Set := mk {
  unread : bool;
  archived : bool;
  ignore_pinned : bool
}.
End ListDialogs.

Module ListMessages.
Record t : Set := mk {
  dialog_id : Z;
  unread : bool;
  limit : Z
}.
End ListMessages.

Module SearchHashtags.
Record t : Set := mk {
  group_id : Z;
  hashtags : list string;
  output_format : string;
  output_file : string;
  api_id : Z;
  api_hash : string
}.
End SearchHashtags.

(** ** The collaborators *)

(** The answers of the session provider, of the remote service and of the
    file system, the interpreter's [str.lower], and what the installed [mcp]
    package makes of [TextContent(text=text)]: a release whose [type] field
    is required raises a validation error, a release that gives the field a
    default returns the item of type ["text"]. *)
Record Env : Type := mkEnv {
  acquire_failure : option Exn;
  iter_dialogs_reply : bool -> bool -> Stream Dialog.t;
  get_peer_dialogs_reply : list Z -> Outcome PeerReply;
  iter_messages_reply : IterMessagesArgs.t -> Stream Item;
  get_entity_failure : Z -> option Exn;
  open_failure : string -> option Exn;
  str_lower : string -> string;
  text_content_without_type : string -> Outcome TextContent.t
}.

Inductive Client : Set := TheClient.

Section Handlers.

Variable env : Env.

(** *** Session provider *)

(** Modelled from the spec: the Session Provider, [create_client] of the
    module [.telegram], which lies outside this module.  [acquire] returns a
    live session or fails (the spec's [ConnectionError]); [release]
    closes it.  Both are recorded in the trace, as a provider that counts
    its calls would. *)
Definition acquire : M Client :=
  match acquire_failure env with
  | Some e => raise e
  | None => do* emit EvAcquire in ret TheClient
  end.

Definition release (client : Client) : M unit := emit EvRelease.

(** [async with create_client() as client: body]: the session is entered,
    and left on every exit of the body. *)
Definition async_with_create_client {A} (body : Client -> M A) : M A :=
  let* client := acquire in
  try_finally (body client) (release client).

(** *** Remote calls *)

Definition iter_dialogs (client : Client) (archived ignore_pinned : bool)
  : M (Stream Dialog.t) :=
  do* emit (EvIterDialogs archived ignore_pinned) in
  ret (iter_dialogs_reply env archived ignore_pinned).

(** [await client(functions.messages.GetPeerDialogsRequest(peers=peers))]. *)
Definition GetPeerDialogsRequest (client : Client) (peers : list Z) : M PeerReply :=
  do* emit (EvGetPeerDialogs peers) in
  match get_peer_dialogs_reply env peers with
  | Return r => ret r
  | Raise e => raise e
  end.

Definition iter_messages (client : Client) (a : IterMessagesArgs.t) : M (Stream Item) :=
  do* emit (EvIterMessages a) in
  ret (iter_messages_reply env a).

Definition get_entity (client : Client) (group_id : Z) : M EntityRef :=
  do* emit (EvGetEntity group_id) in
  match get_entity_failure env group_id with
  | Some e => raise e
  | None => ret (Resolved group_id)
  end.

(** The calls to [logger] leave no trace in the embedding: they read their
    arguments and return nothing. *)

(** *** list_dialogs *)

Definition dialog_line (dialog : Dialog.t) : string :=
  "name='" +:+ Dialog.name dialog +:+ "' id=" +:+ str_int (Dialog.id dialog)
  +:+ " unread=" +:+ str_int (Dialog.unread_count dialog)
  +:+ " mentions=" +:+ str_int (Dialog.unread_mentions_count dialog).

(** The body of the [async for] of [list_dialogs]; [response] is the list
    the loop appends to. *)
Definition list_dialogs_step (args : ListDialogs.t)
    (response : list TextContent.t) (dialog : Dialog.t) : M (list TextContent.t) :=
  if ListDialogs.unread args && (Dialog.unread_count dialog =? 0)%Z
  then ret response
  else
    let msg := dialog_line dialog in
    ret (response ++ [TextContent.mk (Some "text") msg]).

Definition list_dialogs (args : ListDialogs.t) : M (list TextContent.t) :=
  async_with_create_client (fun client =>
    let* it := iter_dialogs client (ListDialogs.archived args)
                 (ListDialogs.ignore_pinned args) in
    async_for it (list_dialogs_step args) []).

(** *** list_messages *)

(** The local variable [dialog] after [for dialog in result.dialogs]:
    bound to the last element, unbound when the sequence is empty. *)
Definition loop_variable {A} (xs : list A) : option A :=
  fold_left (fun _ x => Some x) xs None.

(** Reading a local variable that no assignment has bound yet (the text
    is that of Python 3.11 and later). *)
Definition unbound_local (var : string) : Exn :=
  mkExn UnboundLocalError
    ("cannot access local variable '" +:+ var
     +:+ "' where it is not associated with a value").

Definition read_local {A} (var : string) (v : option A) : M A :=
  match v with
  | Some x => ret x
  | None => raise (unbound_local var)
  end.

Definition list_messages_step
    (response : list TextContent.t) (message : Item) : M (list TextContent.t) :=
  match message with
  | ItemMessage m =>
      match Message.text m with
      | Some text =>
          if String.eqb text ""
          then ret response
          else ret (response ++ [TextContent.mk (Some "text") text])
      | None => ret response
      end
  | ItemOther _ => ret response
  end.

(** The construction of [iter_messages_args]; [dialog] is the local
    variable left by the loop over [result.dialogs]. *)
Definition list_messages_iter_args (args : ListMessages.t)
    (dialog : option TLDialog.t) : M IterMessagesArgs.t :=
  let entity := ById (ListMessages.dialog_id args) in
  let reverse := Some false in
  if ListMessages.unread args
  then
    let* dialog := read_local "dialog" dialog in
    ret (IterMessagesArgs.mk entity reverse
           (Some (Z.min (TLDialog.unread_count dialog) (ListMessages.limit args))))
  else
    ret (IterMessagesArgs.mk entity reverse (Some (ListMessages.limit args))).

Definition list_messages (args : ListMessages.t) : M (list TextContent.t) :=
  async_with_create_client (fun client =>
    let* result := GetPeerDialogsRequest client [ListMessages.dialog_id args] in
    match result with
    | ReplyFalsy =>
        raise (mkExn ValueError
                 ("Channel not found: " +:+ str_int (ListMessages.dialog_id args)))
    | ReplyOther type_repr =>
        raise (mkExn TypeError ("Unexpected result: " +:+ type_repr))
    | ReplyPeerDialogs result =>
        let dialog := loop_variable (PeerDialogs.dialogs result) in
        let* iter_messages_args := list_messages_iter_args args dialog in
        let* it := iter_messages client iter_messages_args in
        async_for it list_messages_step []
    end).

(** *** search_hashtags *)

(** [TextContent(text=text)], as [search_hashtags] builds its items. *)
Definition TextContent_without_type (text : string) : M TextContent.t :=
  match text_content_without_type env text with
  | Return item => ret item
  | Raise e => raise e
  end.

(** [message.date.isoformat()]. *)
Definition isoformat (date : option string) : M string :=
  match date with
  | Some iso => ret iso
  | None =>
      raise (mkExn AttributeError
               "'NoneType' object has no attribute 'isoformat'")
  end.

(** [for hashtag in args.hashtags: ...], on the pair of the locals
    [messages] and [total_count]; the loop is left at the first hashtag
    found in the text. *)
Fixpoint search_hashtags_scan (m : Message.t) (text : string)
    (hashtags : list string) (st : list Hit.t * Z) : M (list Hit.t * Z) :=
  match hashtags with
  | [] => ret st
  | hashtag :: rest =>
      if str_contains (str_lower env hashtag) (str_lower env text)
      then
        let* date := isoformat (Message.date m) in
        let username :=
          match Message.sender m with
          | Some sender => Sender.username sender
          | None => Some "Unknown"
          end in
        ret (fst st ++ [Hit.mk date (Message.sender_id m) username text hashtag],
             snd st + 1)
      else search_hashtags_scan m text rest st
  end.

Definition search_hashtags_step (args : SearchHashtags.t)
    (st : list Hit.t * Z) (message : Item) : M (list Hit.t * Z) :=
  match message with
  | ItemMessage m =>
      match Message.text m with
      | Some text =>
          if String.eqb text ""
          then ret st
          else search_hashtags_scan m text (SearchHashtags.hashtags args) st
      | None => ret st
      end
  | ItemOther cls =>
      raise (mkExn AttributeError
               ("'" +:+ cls +:+ "' object has no attribute 'text'"))
  end.

(** [open(path, 'w', ...)]. *)
Definition open_w (path : string) : M unit :=
  match open_failure env path with
  | Some e => raise e
  | None => ret tt
  end.

Definition csv_fieldnames : list string :=
  ["date"; "user_id"; "username"; "message"; "hashtag"].

(** The five [f.write] calls for one record of the text report. *)
Definition txt_record (msg : Hit.t) : list string :=
  [ "Date: " +:+ Hit.date msg +:+ newline;
    "User: " +:+ str_or_None id (Hit.username msg)
      +:+ " (ID: " +:+ str_or_None str_int (Hit.user_id msg) +:+ ")" +:+ newline;
    "Message: " +:+ Hit.message msg +:+ newline;
    "Hashtag: " +:+ Hit.hashtag msg +:+ newline;
    str_repeat "-" 50 +:+ newline ].

Definition export (args : SearchHashtags.t) (messages : list Hit.t) : M unit :=
  if String.eqb (SearchHashtags.output_format args) "csv"
  then
    let path := SearchHashtags.output_file args +:+ ".csv" in
    do* open_w path in
    emit (EvWriteFile path (CsvDoc csv_fieldnames messages))
  else
    let path := SearchHashtags.output_file args +:+ ".txt" in
    do* open_w path in
    emit (EvWriteFile path (TxtDoc (flat_map txt_record messages))).

(** The suite of the [try] statement. *)
Definition search_hashtags_try (args : SearchHashtags.t) : M (list TextContent.t) :=
  let* client := acquire in
  let* group := get_entity client (SearchHashtags.group_id args) in
  let* it := iter_messages client (IterMessagesArgs.mk group None None) in
  let* st := async_for it (search_hashtags_step args) ([], 0) in
  let messages := fst st in
  let total_count := snd st in
  do* export args messages in
  do* release client in
  let* item :=
    TextContent_without_type
      ("Successfully exported " +:+ str_int total_count
       +:+ " messages with hashtags "
       +:+ str_join ", " (SearchHashtags.hashtags args)
       +:+ " to " +:+ SearchHashtags.output_file args
       +:+ "." +:+ SearchHashtags.output_format args) in
  ret [item].

(** The suite of [except Exception as e]; a failure of the construction of
    the item leaves the handler. *)
Definition search_hashtags_except (e : Exn) : M (list TextContent.t) :=
  let* item :=
    TextContent_without_type ("Error searching hashtags: " +:+ exn_str e) in
  ret [item].

Definition search_hashtags (args : SearchHashtags.t) : M (list TextContent.t) :=
  try_except_Exception (search_hashtags_try args) search_hashtags_except.

End Handlers.

(** ** Argument classes and tool descriptors *)

Inductive FieldType : Set := TBool | TInt | TStr | TListStr.

(** Plain values: field defaults and call arguments. *)
Inductive PyVal : Set :=
| VNone
| VBool (b : bool)
| VInt (z : Z)
| VStr (s : string)
| VStrList (l : list string).

(** A declared field; it is required when it has no default. *)
Record Field : Set := mkField {
  field_name : string;
  field_type : FieldType;
  field_default : option PyVal
}.

(** A class: its name, its qualified name and the module that defines it,
    its docstring, its method resolution order (by class name, the class
    itself first) and its declared fields. *)
Record PyClass : Set := mkClass {
  __name__ : string;
  __qualname__ : string;
  __module__ : string;
  __doc__ : option string;
  __mro__ : list string;
  model_fields : list Field
}.

(** A class defined at the top level of [mcp_telegram.tools]. *)
Definition module_class (name : string) (doc : option string)
    (mro : list string) (fields : list Field) : PyClass :=
  mkClass name name "mcp_telegram.tools" doc mro fields.

Definition ToolArgs_cls : PyClass :=
  module_class "ToolArgs" None ["ToolArgs"; "BaseModel"; "object"] [].

Definition ListDialogs_cls : PyClass :=
  module_class "ListDialogs" (Some "List available dialogs, chats and channels.")
    ["ListDialogs"; "ToolArgs"; "BaseModel"; "object"]
    [ mkField "unread" TBool (Some (VBool false));
      mkField "archived" TBool (Some (VBool false));
      mkField "ignore_pinned" TBool (Some (VBool false)) ].

Definition ListMessages_doc : string :=
  newline
  +:+ "    List messages in a given dialog, chat or channel. The messages are listed in order from newest to oldest."
  +:+ newline +:+ newline
  +:+ "    If `unread` is set to `True`, only unread messages will be listed. Once a message is read, it will not be"
  +:+ newline
  +:+ "    listed again."
  +:+ newline +:+ newline
  +:+ "    If `limit` is set, only the last `limit` messages will be listed. If `unread` is set, the limit will be"
  +:+ newline
  +:+ "    the minimum between the unread messages and the limit."
  +:+ newline +:+ "    ".

Definition ListMessages_cls : PyClass :=
  module_class "ListMessages" (Some ListMessages_doc)
    ["ListMessages"; "ToolArgs"; "BaseModel"; "object"]
    [ mkField "dialog_id" TInt None;
      mkField "unread" TBool (Some (VBool false));
      mkField "limit" TInt (Some (VInt 100)) ].

Definition SearchHashtags_cls : PyClass :=
  module_class "SearchHashtags"
    (Some "Search for specific hashtags in a Telegram group and export results to CSV.")
    ["SearchHashtags"; "ToolArgs"; "BaseModel"; "object"]
    [ mkField "group_id" TInt None;
      mkField "hashtags" TListStr None;
      mkField "output_format" TStr (Some (VStr "csv"));
      mkField "output_file" TStr (Some (VStr "hashtag_results"));
      mkField "api_id" TInt None;
      mkField "api_hash" TStr None ].

(** The structural part of [cls.model_json_schema()]: the title, each
    field with its type and default, and the names of the required
    fields. *)
Module Schema.
Record t : Set := mk {
  title : string;
  properties : list Field;
  required : list string
}.
End Schema.

Definition is_required (f : Field) : bool :=
  match field_default f with
  | None => true
  | Some _ => false
  end.

Definition model_json_schema (cls : PyClass) : Schema.t :=
  Schema.mk (__name__ cls) (model_fields cls)
    (map field_name (List.filter is_required (model_fields cls))).

(** [mcp.types.Tool]. *)
Module Tool.
Record t : Set := mk {
  name : string;
  description : option string;
  inputSchema : Schema.t
}.
End Tool.

Definition tool_description (args : PyClass) : Outcome Tool.t :=
  Return (Tool.mk (__name__ args) (__doc__ args) (model_json_schema args)).

(** ** The registry of [tool_runner] *)

(** The functions that [tool_runner] can dispatch to: the generic function
    body and the three registered handlers. *)
Inductive Handler : Set :=
| tool_runner_generic
| list_dialogs_fn
| list_messages_fn
| search_hashtags_fn.

(** [functools.singledispatch]: the registry maps a class to a function and
    starts with the generic body bound to [object]. *)
Definition singledispatch : gmap string Handler :=
  {[ "object" := tool_runner_generic ]}.

(** [tool_runner.register(cls, func)]: [registry[cls] = func].  The
    decorator form [@tool_runner.register] takes [cls] from the annotation
    of the first parameter of the function. *)
Definition register (cls : PyClass) (func : Handler)
    (registry : gmap string Handler) : Outcome (gmap string Handler) :=
  Return (<[ __name__ cls := func ]> registry).

(** [tool_runner.dispatch(cls)]: the function of the first class of the
    method resolution order that has one. *)
Fixpoint dispatch_mro (registry : gmap string Handler) (mro : list string) : Handler :=
  match mro with
  | [] => tool_runner_generic
  | c :: mro' =>
      match registry !! c with
      | Some func => func
      | None => dispatch_mro registry mro'
      end
  end.

Definition dispatch (registry : gmap string Handler) (cls : PyClass) : Handler :=
  dispatch_mro registry (__mro__ cls).

Definition and_then {A B} (o : Outcome A) (k : A -> Outcome B) : Outcome B :=
  match o with
  | Return a => k a
  | Raise e => Raise e
  end.

(** The three [@tool_runner.register] decorations, in source order. *)
Definition module_registry : Outcome (gmap string Handler) :=
  and_then (register ListDialogs_cls list_dialogs_fn singledispatch) (fun r1 =>
  and_then (register ListMessages_cls list_messages_fn r1) (fun r2 =>
  register SearchHashtags_cls search_hashtags_fn r2)).

(** The classes that have a registered handler. *)
Definition registered_classes : list PyClass :=
  [ListDialogs_cls; ListMessages_cls; SearchHashtags_cls].

(** A value passed to [tool_runner]: an instance of one of the three
    argument classes, an instance of a class derived from the class of
    another value, which carries the fields of that value, or an object
    that has none of the fields that the handlers read. *)
Inductive ArgValue : Set :=
| ListDialogs_val (a : ListDialogs.t)
| ListMessages_val (a : ListMessages.t)
| SearchHashtags_val (a : SearchHashtags.t)
| Derived_val (cls : PyClass) (base : ArgValue)
| Other_val (cls : PyClass).

(** [type(args)].  For a derived instance, [cls] gives the names, the
    module, the docstring and the added fields of the derived class; its
    method resolution order is the class, then that of its base. *)
Fixpoint type_of (v : ArgValue) : PyClass :=
  match v with
  | ListDialogs_val _ => ListDialogs_cls
  | ListMessages_val _ => ListMessages_cls
  | SearchHashtags_val _ => SearchHashtags_cls
  | Derived_val cls base =>
      mkClass (__name__ cls) (__qualname__ cls) (__module__ cls) (__doc__ cls)
        (__name__ cls :: __mro__ (type_of base))
        (model_fields (type_of base) ++ model_fields cls)
  | Other_val cls => cls
  end.

(** The fields of a value as each handler reads them, own or inherited. *)
Fixpoint as_ListDialogs (v : ArgValue) : option ListDialogs.t :=
  match v with
  | ListDialogs_val a => Some a
  | Derived_val _ base => as_ListDialogs base
  | _ => None
  end.

Fixpoint as_ListMessages (v : ArgValue) : option ListMessages.t :=
  match v with
  | ListMessages_val a => Some a
  | Derived_val _ base => as_ListMessages base
  | _ => None
  end.

Fixpoint as_SearchHashtags (v : ArgValue) : option SearchHashtags.t :=
  match v with
  | SearchHashtags_val a => Some a
  | Derived_val _ base => as_SearchHashtags base
  | _ => None
  end.

(** [repr(cls)]: the module and the qualified name, or the bare name for a
    class of [builtins]. *)
Definition class_repr (cls : PyClass) : string :=
  if String.eqb (__module__ cls) "builtins"
  then "<class '" +:+ __name__ cls +:+ "'>"
  else "<class '" +:+ __module__ cls +:+ "." +:+ __qualname__ cls +:+ "'>".

Definition no_attribute (cls : PyClass) (attr : string) : Exn :=
  mkExn AttributeError
    ("'" +:+ __name__ cls +:+ "' object has no attribute '" +:+ attr +:+ "'").

Section Dispatch.

Variable env : Env.

(** Calling a function of the registry on a value.  A handler runs on the
    fields of the value, own or inherited; on a value without them it
    fails at the first field it reads. *)
Definition call_handler (func : Handler) (args : ArgValue) : M (list TextContent.t) :=
  match func with
  | tool_runner_generic =>
      raise (mkExn NotImplementedError
               ("Unsupported type: " +:+ class_repr (type_of args)))
  | list_dialogs_fn =>
      match as_ListDialogs args with
      | Some a => list_dialogs env a
      | None =>
          async_with_create_client env (fun _ =>
            raise (no_attribute (type_of args) "archived"))
      end
  | list_messages_fn =>
      match as_ListMessages args with
      | Some a => list_messages env a
      | None =>
          async_with_create_client env (fun _ =>
            raise (no_attribute (type_of args) "dialog_id"))
      end
  | search_hashtags_fn =>
      match as_SearchHashtags args with
      | Some a => search_hashtags env a
      | None =>
          try_except_Exception
            (do* acquire env in raise (no_attribute (type_of args) "group_id"))
            (search_hashtags_except env)
      end
  end.

(** [tool_runner(args)] with a given registry. *)
Definition tool_runner (registry : gmap string Handler) (args : ArgValue)
  : M (list TextContent.t) :=
  call_handler (dispatch registry (type_of args)) args.

End Dispatch.

(** ** The module namespace and [tool_args] *)

(** The objects bound at module level. *)
Inductive PyObj : Set :=
| ModuleClass (cls : PyClass)
| ImportedClass (qualname : string)
| FunctionObj (qualname : string)
| ModuleObj (qualname : string)
| InstanceObj (repr : string).

(** [sys.modules[__name__].__dict__] once the module is loaded: the
    module attributes set by the import system, then every name bound by
    an import, an assignment, a [class] or a [def], top to bottom. *)
Definition module_bindings : list (string * PyObj) :=
  [ ("__name__", InstanceObj "'mcp_telegram.tools'");
    ("__doc__", InstanceObj "None");
    ("__package__", InstanceObj "'mcp_telegram'");
    ("__loader__", InstanceObj "SourceFileLoader");
    ("__spec__", InstanceObj "ModuleSpec");
    ("__file__", InstanceObj "tools.py");
    ("__cached__", InstanceObj "tools.pyc");
    ("__builtins__", InstanceObj "builtins");
    ("annotations", InstanceObj "_Feature");
    ("logging", ModuleObj "logging");
    ("sys", ModuleObj "sys");
    ("t", ModuleObj "typing");
    ("singledispatch", FunctionObj "functools.singledispatch");
    ("EmbeddedResource", ImportedClass "mcp.types.EmbeddedResource");
    ("ImageContent", ImportedClass "mcp.types.ImageContent");
    ("TextContent", ImportedClass "mcp.types.TextContent");
    ("Tool", ImportedClass "mcp.types.Tool");
    ("BaseModel", ImportedClass "pydantic.BaseModel");
    ("ConfigDict", ImportedClass "pydantic.ConfigDict");
    ("TelegramClient", ImportedClass "telethon.TelegramClient");
    ("custom", ModuleObj "telethon.custom");
    ("functions", ModuleObj "telethon.functions");
    ("types", ModuleObj "telethon.types");
    ("create_client", FunctionObj "mcp_telegram.telegram.create_client");
    ("logger", InstanceObj "Logger mcp_telegram.tools");
    ("ToolArgs", ModuleClass ToolArgs_cls);
    ("tool_runner", FunctionObj "mcp_telegram.tools.tool_runner");
    ("tool_description", FunctionObj "mcp_telegram.tools.tool_description");
    ("tool_args", FunctionObj "mcp_telegram.tools.tool_args");
    ("ListDialogs", ModuleClass ListDialogs_cls);
    ("list_dialogs", FunctionObj "mcp_telegram.tools.list_dialogs");
    ("ListMessages", ModuleClass ListMessages_cls);
    ("list_messages", FunctionObj "mcp_telegram.tools.list_messages");
    ("SearchHashtags", ModuleClass SearchHashtags_cls);
    ("search_hashtags", FunctionObj "mcp_telegram.tools.search_hashtags") ].

Definition module_dict : gmap string PyObj := list_to_map module_bindings.

(** The positional and keyword arguments of a call. *)
Record CallArgs : Set := mkCallArgs {
  positional : list PyVal;
  keywords : list (string * PyVal)
}.

Section ToolArgs.

(** The interpreter's call protocol, [callee( *args, **kwargs)]. *)
Variable Object : Type.
Variable call : PyObj -> CallArgs -> Outcome Object.

(** [KeyError(key)]; its text is the [repr] of the key. *)
Definition key_error (key : string) : Exn :=
  mkExn KeyError ("'" +:+ key +:+ "'").

Definition tool_args (tool : Tool.t) (args : CallArgs) : Outcome Object :=
  match module_dict !! Tool.name tool with
  | Some callee => call callee args
  | None => Raise (key_error (Tool.name tool))
  end.

End ToolArgs.

(** ** Notions used in the statements *)

(** The text of a text-bearing item: a message whose text is neither
    absent nor empty. *)
Definition text_bearing (item : Item) : option string :=
  match item with
  | ItemMessage m => if truthy_text (Message.text m) then Message.text m else None
  | ItemOther _ => None
  end.

(** One Text content item per text-bearing item, in the order given. *)
Definition text_items (items : list Item) : list TextContent.t :=
  map (TextContent.mk (Some "text")) (omap text_bearing items).

(** The effective fetch limit in the words of the specification:
    [min(unreadCount, limit)] when [unreadOnly] is set, else [limit]. *)
Definition effective_fetch_limit (unreadOnly : bool) (unreadCount limit : Z) : Z :=
  if unreadOnly then Z.min unreadCount limit else limit.

(** The events of a [list_messages] invocation that reaches the message
    iteration with the arguments [a]. *)
Definition list_messages_trace (dialog_id : Z) (a : IterMessagesArgs.t) : Trace :=
  [EvAcquire; EvGetPeerDialogs [dialog_id]; EvIterMessages a; EvRelease].

(** The events of a [list_messages] invocation that fails before the
    message iteration. *)
Definition list_messages_early_trace (dialog_id : Z) : Trace :=
  [EvAcquire; EvGetPeerDialogs [dialog_id]; EvRelease].

(** The dialogs that [list_dialogs] reports. *)
Definition list_dialogs_keep (args : ListDialogs.t) (dialog : Dialog.t) : bool :=
  negb (ListDialogs.unread args && (Dialog.unread_count dialog =? 0)%Z).

Definition dialog_item (dialog : Dialog.t) : TextContent.t :=
  TextContent.mk (Some "text") (dialog_line dialog).

(** The outcome of an iteration that appends the text items of a stream. *)
Definition stream_outcome (it : Stream Item) : Outcome (list TextContent.t) :=
  match failure it with
  | Some e => Raise e
  | None => Return (text_items (yielded it))
  end.

(** The class of the failure an outcome ends in, if any. *)
Definition exn_class_of {A} (o : Outcome A) : option ExnClass :=
  match o with
  | Return _ => None
  | Raise e => Some (exn_class e)
  end.

(** The outcome of returning the single item [TextContent(text=text)]. *)
Definition single_item (env : Env) (text : string) : Outcome (list TextContent.t) :=
  match text_content_without_type env text with
  | Return item => Return [item]
  | Raise e => Raise e
  end.

(** What [search_hashtags] makes of a failure raised in its [try] suite. *)
Definition search_hashtags_caught (env : Env) (e : Exn) : Outcome (list TextContent.t) :=
  if is_Exception e
  then single_item env ("Error searching hashtags: " +:+ exn_str e)
  else Raise e.

(** The file that [search_hashtags] writes and its content. *)
Definition export_path (args : SearchHashtags.t) : string :=
  if String.eqb (SearchHashtags.output_format args) "csv"
  then SearchHashtags.output_file args +:+ ".csv"
  else SearchHashtags.output_file args +:+ ".txt".

Definition export_doc (args : SearchHashtags.t) (messages : list Hit.t) : FileDoc :=
  if String.eqb (SearchHashtags.output_format args) "csv"
  then CsvDoc csv_fieldnames messages
  else TxtDoc (flat_map txt_record messages).

(** The outcome of the scan of the delivered items, which touches no
    collaborator. *)
Definition scan_outcome (env : Env) (args : SearchHashtags.t) (items : list Item)
  : Outcome (list Hit.t * Z) :=
  fst (for_each (search_hashtags_step env args) items ([], 0) []).

(** ** Test doubles *)

(** An [mcp] package whose [TextContent] gives [type] the default
    ["text"]. *)
Definition mcp_type_defaulted (text : string) : Outcome TextContent.t :=
  Return (TextContent.mk (Some "text") text).

(** An [mcp] package whose [TextContent] requires [type]. *)
Definition type_missing : Exn :=
  mkExn ValidationError "1 validation error for TextContent".

Definition mcp_type_required (text : string) : Outcome TextContent.t :=
  Raise type_missing.

Definition lower_ascii_char (c : Ascii.ascii) : Ascii.ascii :=
  let n := Ascii.nat_of_ascii c in
  if (65 <=? n)%nat && (n <=? 90)%nat then Ascii.ascii_of_nat (n + 32) else c.

(** [str.lower] on ASCII text. *)
Fixpoint lower_ascii (s : string) : string :=
  match s with
  | EmptyString => EmptyString
  | String c s' => String (lower_ascii_char c) (lower_ascii s')
  end.

(** A remote service with three conversations, of unread counts 0, 5
    and 2. *)
Definition three_dialogs : list Dialog.t :=
  [ Dialog.mk "Alice" 101 0 0;
    Dialog.mk "Team" (-1001234) 5 1;
    Dialog.mk "Bob" 103 2 0 ].

Definition env_three_dialogs : Env :=
  mkEnv None
    (fun _ _ => mkStream three_dialogs None)
    (fun _ => Return ReplyFalsy)
    (fun _ => mkStream [] None)
    (fun _ => None)
    (fun _ => None)
    lower_ascii
    mcp_type_defaulted.

Definition text_message (text : string) : Item :=
  ItemMessage (Message.mk (Some text) (Some "2024-05-01T10:00:00+00:00")
                 (Some 7) (Some (Sender.mk (Some "alice")))).

Definition photo_message : Item :=
  ItemMessage (Message.mk None (Some "2024-05-01T09:59:00+00:00")
                 (Some 7) (Some (Sender.mk (Some "alice")))).

(** Three messages, newest first; the second one bears no text. *)
Definition three_messages : list Item :=
  [text_message "newest"; photo_message; text_message "oldest"].

(** A remote service that reports [unread_count = 3] for dialog 42. *)
Definition env_dialog_42 : Env :=
  mkEnv None
    (fun _ _ => mkStream [] None)
    (fun _ => Return (ReplyPeerDialogs
                        (PeerDialogs.mk [TLDialog.mk 42 3] [])))
    (fun _ => mkStream three_messages None)
    (fun _ => None)
    (fun _ => None)
    lower_ascii
    mcp_type_defaulted.

(** A remote service whose reply for dialog 42 holds no dialog. *)
Definition env_no_dialog : Env :=
  mkEnv None
    (fun _ _ => mkStream [] None)
    (fun _ => Return (ReplyPeerDialogs (PeerDialogs.mk [] [])))
    (fun _ => mkStream three_messages None)
    (fun _ => None)
    (fun _ => None)
    lower_ascii
    mcp_type_defaulted.

(** A remote service whose reply holds dialog 42 (3 unread), then
    dialog 7 (50 unread). *)
Definition env_two_dialogs : Env :=
  mkEnv None
    (fun _ _ => mkStream [] None)
    (fun _ => Return (ReplyPeerDialogs
                        (PeerDialogs.mk [TLDialog.mk 42 3; TLDialog.mk 7 50] [])))
    (fun _ => mkStream three_messages None)
    (fun _ => None)
    (fun _ => None)
    lower_ascii
    mcp_type_defaulted.

(** A session provider that cannot connect. *)
Definition connection_failed : Exn :=
  mkExn ConnectionError "Connection to Telegram failed".

Definition env_offline : Env :=
  mkEnv (Some connection_failed)
    (fun _ _ => mkStream [] None)
    (fun _ => Return ReplyFalsy)
    (fun _ => mkStream [] None)
    (fun _ => None)
    (fun _ => None)
    lower_ascii
    mcp_type_defaulted.

Definition search_args : SearchHashtags.t :=
  SearchHashtags.mk (-1001234567890) ["#intro"; "#iam"] "csv" "intro_messages"
    12345 "0123456789abcdef".

(** A remote service that does not know the group. *)
Definition entity_not_found : Exn :=
  mkExn ValueError "Cannot find any entity corresponding to -1001234567890".

Definition env_unknown_group : Env :=
  mkEnv None
    (fun _ _ => mkStream [] None)
    (fun _ => Return ReplyFalsy)
    (fun _ => mkStream [] None)
    (fun _ => Some entity_not_found)
    (fun _ => None)
    lower_ascii
    mcp_type_defaulted.

(** The same remote service, with an [mcp] package that requires [type]. *)
Definition env_unknown_group_strict : Env :=
  mkEnv None
    (fun _ _ => mkStream [] None)
    (fun _ => Return ReplyFalsy)
    (fun _ => mkStream [] None)
    (fun _ => Some entity_not_found)
    (fun _ => None)
    lower_ascii
    mcp_type_required.

(** An invocation that is cancelled while the group is resolved. *)
Definition cancelled : Exn := mkExn CancelledError "".

Definition env_cancelled : Env :=
  mkEnv None
    (fun _ _ => mkStream [] None)
    (fun _ => Return ReplyFalsy)
    (fun _ => mkStream [] None)
    (fun _ => Some cancelled)
    (fun _ => None)
    lower_ascii
    mcp_type_defaulted.

(** A group with three messages, two of which carry a searched hashtag. *)
Definition env_group : Env :=
  mkEnv None
    (fun _ _ => mkStream [] None)
    (fun _ => Return ReplyFalsy)
    (fun _ => mkStream [text_message "Hello #Intro"; photo_message;
                        text_message "no tag"; text_message "#iam new"] None)
    (fun _ => None)
    (fun _ => None)
    lower_ascii
    mcp_type_defaulted.

(** A class whose docstring is the empty string. *)
Definition EmptyDoc_cls : PyClass :=
  module_class "EmptyDoc" (Some "") ["EmptyDoc"; "ToolArgs"; "BaseModel"; "object"] [].

(** The fields that carry the credentials of the Telegram API. *)
Definition credential_field_names : list string := ["api_id"; "api_hash"].

Definition is_credential_field (f : Field) : bool :=
  existsb (String.eqb (field_name f)) credential_field_names.

Definition credential_fields (cls : PyClass) : list Field :=
  List.filter is_credential_field (model_fields cls).

(** A call protocol that records the callee and its arguments. *)
Definition echo_call (callee : PyObj) (args : CallArgs) : Outcome (PyObj * CallArgs) :=
  Return (callee, args).

Definition no_schema : Schema.t := Schema.mk "" [] [].

(** ** Notions and test doubles of the further properties *)

(** [hashtag.lower() in text.lower()], the test of the inner loop of
    [search_hashtags]. *)
Definition hashtag_matches (env : Env) (hashtag text : string) : bool :=
  str_contains (str_lower env hashtag) (str_lower env text).

(** The record that [search_hashtags] appends for the message [m], of text
    [text] and date [date], found under [hashtag]. *)
Definition hit_of (m : Message.t) (date text hashtag : string) : Hit.t :=
  Hit.mk date (Message.sender_id m)
    match Message.sender m with
    | Some sender => Sender.username sender
    | None => Some "Unknown"
    end
    text hashtag.

(** The registry that the three decorations of the module build. *)
Definition registry_of_module : gmap string Handler :=
  <[ "SearchHashtags" := search_hashtags_fn ]>
    (<[ "ListMessages" := list_messages_fn ]>
       (<[ "ListDialogs" := list_dialogs_fn ]>
          ({[ "object" := tool_runner_generic ]} : gmap string Handler))).


(** A class derived from [ListDialogs] in another module, with a field of
    its own; its method resolution order comes from the value that an
    instance derives from. *)
Definition UnreadDialogs_cls : PyClass :=
  mkClass "UnreadDialogs" "UnreadDialogs" "client_extensions"
    (Some "List the dialogs with unread messages.") []
    [mkField "mentions_only" TBool (Some (VBool false))].


(** The group of [env_group], with an [mcp] package that requires
    [type]. *)
Definition env_group_strict : Env :=
  mkEnv None
    (fun _ _ => mkStream [] None)
    (fun _ => Return ReplyFalsy)
    (fun _ => mkStream [text_message "Hello #Intro"; photo_message;
                        text_message "no tag"; text_message "#iam new"] None)
    (fun _ => None)
    (fun _ => None)
    lower_ascii
    mcp_type_required.

(** What holds of a record that [search_hashtags] collects from the items
    [items]: its hashtag is one of the request and occurs in its message,
    case folded, and its message is the non-empty text of a message
    delivered. *)
Definition hit_from (env : Env) (args : SearchHashtags.t) (items : list Item)
    (hit : Hit.t) : Prop :=
  In (Hit.hashtag hit) (SearchHashtags.hashtags args)
  /\ hashtag_matches env (Hit.hashtag hit) (Hit.message hit) = true
  /\ Hit.message hit <> ""
  /\ exists m, In (ItemMessage m) items /\ Message.text m = Some (Hit.message hit).

(** The text that [search_hashtags] returns when its [try] suite ends. *)
Definition success_text (args : SearchHashtags.t) (total_count : Z) : string :=
  "Successfully exported " +:+ str_int total_count
  +:+ " messages with hashtags " +:+ str_join ", " (SearchHashtags.hashtags args)
  +:+ " to " +:+ SearchHashtags.output_file args
  +:+ "." +:+ SearchHashtags.output_format args.

Definition is_message (item : Item) : Prop :=
  match item with
  | ItemMessage _ => True
  | ItemOther _ => False
  end.

(** A request for a report in a format that is not [csv]. *)
Definition search_args_json : SearchHashtags.t :=
  SearchHashtags.mk (-1001234567890) ["#intro"; "#iam"] "json" "intro_messages"
    12345 "0123456789abcdef".

(** A request that names no hashtag. *)
Definition search_args_no_hashtag : SearchHashtags.t :=
  SearchHashtags.mk (-1001234567890) [] "csv" "intro_messages"
    12345 "0123456789abcdef".

(** A message that names two of the hashtags searched. *)
Definition two_tags_message : Message.t :=
  Message.mk (Some "I am new #IAM #intro") (Some "2024-05-02T08:00:00+00:00")
    None None.

(** * Properties *)

(** ** The monad and the loops *)

(** Runs the first [bind] of the goal on the trace it is applied to. *)
Ltac bind_step := unfold bind at 1; simpl.

Lemma for_each_pure {A S} (f : S -> A -> S) (body : S -> A -> M S) :
  (forall s x, body s x = ret (f s x)) ->
  forall xs s tr, for_each body xs s tr = (Return (fold_left f xs s), tr).
Proof.
  intros Hbody xs. induction xs as [|x xs IH]; intros s tr; simpl.
  - reflexivity.
  - unfold bind. rewrite Hbody. simpl. apply IH.
Qed.

Lemma async_for_pure {A S} (f : S -> A -> S) (body : S -> A -> M S) :
  (forall s x, body s x = ret (f s x)) ->
  forall (st : Stream A) s tr,
    async_for st body s tr =
    match failure st with
    | Some e => (Raise e, tr)
    | None => (Return (fold_left f (yielded st) s), tr)
    end.
Proof.
  intros Hbody st s tr. unfold async_for, bind.
  rewrite (for_each_pure f body Hbody). destruct (failure st); reflexivity.
Qed.

Lemma loop_variable_last {A} (xs : list A) : loop_variable xs = last xs.
Proof.
  unfold loop_variable.
  destruct xs as [|x xs]; [reflexivity|]. simpl.
  revert x. induction xs as [|y ys IH]; intros x; simpl; [reflexivity|].
  rewrite IH. reflexivity.
Qed.

(** ** list_dialogs *)

Lemma list_dialogs_step_pure args response dialog :
  list_dialogs_step args response dialog =
  ret (if list_dialogs_keep args dialog
       then response ++ [dialog_item dialog] else response).
Proof.
  unfold list_dialogs_step, list_dialogs_keep.
  destruct (ListDialogs.unread args && (Dialog.unread_count dialog =? 0)%Z);
    reflexivity.
Qed.

Lemma fold_left_keep {A B} (keep : A -> bool) (f : A -> B) (xs : list A) (acc : list B) :
  fold_left (fun r x => if keep x then r ++ [f x] else r) xs acc =
  acc ++ map f (List.filter keep xs).
Proof.
  revert acc. induction xs as [|x xs IH]; intros acc; simpl.
  - rewrite app_nil_r. reflexivity.
  - rewrite IH. destruct (keep x); simpl; [|reflexivity].
    rewrite <- app_assoc. reflexivity.
Qed.

(** The outcome and the trace of [list_dialogs], for every environment. *)
Lemma list_dialogs_run env args :
  run (list_dialogs env args) =
  match acquire_failure env with
  | Some e => (Raise e, [])
  | None =>
      let it := iter_dialogs_reply env (ListDialogs.archived args)
                  (ListDialogs.ignore_pinned args) in
      (match failure it with
       | Some e => Raise e
       | None => Return (map dialog_item
                           (List.filter (list_dialogs_keep args) (yielded it)))
       end,
       [EvAcquire;
        EvIterDialogs (ListDialogs.archived args) (ListDialogs.ignore_pinned args);
        EvRelease])
  end.
Proof.
  unfold run, list_dialogs, async_with_create_client, acquire.
  destruct (acquire_failure env) as [e|]; [reflexivity|].
  bind_step. unfold try_finally, iter_dialogs. bind_step.
  rewrite (async_for_pure _ _ (list_dialogs_step_pure args)).
  rewrite fold_left_keep. simpl.
  destruct (failure _); reflexivity.
Qed.

(** C6.  [list_dialogs] with [unread=True]: when the iteration over the
    dialogs completes, the handler returns one text line per dialog whose
    unread count is strictly positive, in iteration order; the line holds
    the dialog's name, id, unread count and mention count.  Dialogs with
    unread count 0 are omitted. *)
Theorem list_dialogs_unread_lines env args (dialogs : list Dialog.t) :
  ListDialogs.unread args = true ->
  acquire_failure env = None ->
  iter_dialogs_reply env (ListDialogs.archived args) (ListDialogs.ignore_pinned args)
    = mkStream dialogs None ->
  Forall (fun d => 0 <= Dialog.unread_count d) dialogs ->
  fst (run (list_dialogs env args)) =
  Return (map (fun d =>
                 TextContent.mk (Some "text")
                   ("name='" +:+ Dialog.name d
                    +:+ "' id=" +:+ str_int (Dialog.id d)
                    +:+ " unread=" +:+ str_int (Dialog.unread_count d)
                    +:+ " mentions=" +:+ str_int (Dialog.unread_mentions_count d)))
            (List.filter (fun d => 0 <? Dialog.unread_count d) dialogs)).
Proof.
  intros Hunread Hacq Hit Hcount.
  rewrite list_dialogs_run, Hacq, Hit. simpl. f_equal.
  unfold list_dialogs_keep. rewrite Hunread. simpl. clear Hit.
  induction Hcount as [|d ds Hd _ IH]; [reflexivity|]. simpl.
  replace (0 <? Dialog.unread_count d) with (negb (Dialog.unread_count d =? 0)%Z)
    by (destruct (Z.eqb_spec (Dialog.unread_count d) 0);
        destruct (Z.ltb_spec 0 (Dialog.unread_count d)); simpl; lia || reflexivity).
  destruct (negb (Dialog.unread_count d =? 0)%Z); simpl; rewrite IH; reflexivity.
Qed.

Lemma list_dialogs_unread_lines_witness :
  fst (run (list_dialogs env_three_dialogs (ListDialogs.mk true false false))) =
  Return [ TextContent.mk (Some "text") "name='Team' id=-1001234 unread=5 mentions=1";
           TextContent.mk (Some "text") "name='Bob' id=103 unread=2 mentions=0" ].
Proof.
  rewrite (list_dialogs_unread_lines env_three_dialogs
             (ListDialogs.mk true false false) three_dialogs).
  - vm_compute. reflexivity.
  - reflexivity.
  - reflexivity.
  - reflexivity.
  - unfold three_dialogs. repeat constructor; simpl; lia.
Defined.

(** ** list_messages *)

Lemma list_messages_step_pure response message :
  list_messages_step response message =
  ret (match text_bearing message with
       | Some text => response ++ [TextContent.mk (Some "text") text]
       | None => response
       end).
Proof.
  unfold list_messages_step, text_bearing, truthy_text.
  destruct message as [m|cls]; [|reflexivity].
  destruct (Message.text m) as [text|]; [|reflexivity].
  destruct (String.eqb text ""); reflexivity.
Qed.

Lemma list_messages_loop (it : Stream Item) tr :
  async_for it list_messages_step [] tr = (stream_outcome it, tr).
Proof.
  rewrite (async_for_pure
             (fun r x => match text_bearing x with
                         | Some text => r ++ [TextContent.mk (Some "text") text]
                         | None => r
                         end) _ list_messages_step_pure).
  unfold stream_outcome, text_items. destruct (failure it); [reflexivity|].
  induction (yielded it) as [|x xs IH] using rev_ind; [reflexivity|].
  rewrite fold_left_app, omap_app, map_app. simpl.
  injection IH as IH. rewrite IH.
  destruct (text_bearing x); simpl; [reflexivity|].
  rewrite app_nil_r. reflexivity.
Qed.

(** The outcome and the trace of [list_messages], for every environment. *)
Lemma list_messages_run env args :
  run (list_messages env args) =
  let dialog_id := ListMessages.dialog_id args in
  match acquire_failure env with
  | Some e => (Raise e, [])
  | None =>
      match get_peer_dialogs_reply env [dialog_id] with
      | Raise e => (Raise e, list_messages_early_trace dialog_id)
      | Return ReplyFalsy =>
          (Raise (mkExn ValueError ("Channel not found: " +:+ str_int dialog_id)),
           list_messages_early_trace dialog_id)
      | Return (ReplyOther type_repr) =>
          (Raise (mkExn TypeError ("Unexpected result: " +:+ type_repr)),
           list_messages_early_trace dialog_id)
      | Return (ReplyPeerDialogs result) =>
          let fetch limit :=
            let a := IterMessagesArgs.mk (ById dialog_id) (Some false) (Some limit) in
            (stream_outcome (iter_messages_reply env a),
             list_messages_trace dialog_id a) in
          if ListMessages.unread args
          then
            match last (PeerDialogs.dialogs result) with
            | Some dialog =>
                fetch (Z.min (TLDialog.unread_count dialog) (ListMessages.limit args))
            | None =>
                (Raise (unbound_local "dialog"), list_messages_early_trace dialog_id)
            end
          else fetch (ListMessages.limit args)
      end
  end.
Proof.
  unfold run, list_messages, async_with_create_client, acquire.
  destruct (acquire_failure env) as [e|]; [reflexivity|].
  bind_step. unfold try_finally, GetPeerDialogsRequest. do 2 bind_step.
  destruct (get_peer_dialogs_reply env _) as [[|result|type_repr]|e];
    try reflexivity.
  simpl. unfold list_messages_iter_args. rewrite loop_variable_last.
  destruct (ListMessages.unread args).
  - destruct (last (PeerDialogs.dialogs result)) as [dialog|]; [|reflexivity].
    bind_step. unfold iter_messages, bind. simpl.
    rewrite list_messages_loop. reflexivity.
  - bind_step. unfold iter_messages, bind. simpl.
    rewrite list_messages_loop. reflexivity.
Qed.

(** C4.  The fetch limit that [list_messages] passes to the remote message
    iteration: when the reply to the dialog request carries the dialog,
    the iteration is started with [limit = min(unread count of the dialog,
    args.limit)] if [args.unread] is set, and with [limit = args.limit]
    otherwise. *)
Theorem list_messages_fetch_limit env args result (dialog : TLDialog.t) :
  acquire_failure env = None ->
  get_peer_dialogs_reply env [ListMessages.dialog_id args]
    = Return (ReplyPeerDialogs result) ->
  (ListMessages.unread args = true -> PeerDialogs.dialogs result = [dialog]) ->
  snd (run (list_messages env args)) =
  [ EvAcquire;
    EvGetPeerDialogs [ListMessages.dialog_id args];
    EvIterMessages
      (IterMessagesArgs.mk (ById (ListMessages.dialog_id args)) (Some false)
         (Some (effective_fetch_limit (ListMessages.unread args)
                  (TLDialog.unread_count dialog) (ListMessages.limit args))));
    EvRelease ].
Proof.
  intros Hacq Hreply Hdialog.
  rewrite list_messages_run, Hacq. simpl. rewrite Hreply.
  unfold effective_fetch_limit.
  destruct (ListMessages.unread args); [|reflexivity].
  rewrite (Hdialog eq_refl). reflexivity.
Qed.

Lemma list_messages_fetch_limit_witness :
  snd (run (list_messages env_dialog_42 (ListMessages.mk 42 true 10))) =
  [ EvAcquire;
    EvGetPeerDialogs [42];
    EvIterMessages (IterMessagesArgs.mk (ById 42) (Some false) (Some 3));
    EvRelease ].
Proof.
  apply (list_messages_fetch_limit env_dialog_42 (ListMessages.mk 42 true 10)
           (PeerDialogs.mk [TLDialog.mk 42 3] []) (TLDialog.mk 42 3)).
  - reflexivity.
  - reflexivity.
  - intros _. reflexivity.
Defined.

(** C5.  The sequence returned by [list_messages]: when the message
    iteration completes, the handler returns exactly one Text content item
    per text-bearing message delivered, carrying that message's text, in
    the order of delivery; the other items are dropped and nothing is
    re-sorted. *)
Theorem list_messages_text_in_order env args result (dialog : TLDialog.t)
    (delivered : list Item) :
  acquire_failure env = None ->
  get_peer_dialogs_reply env [ListMessages.dialog_id args]
    = Return (ReplyPeerDialogs result) ->
  (ListMessages.unread args = true ->
   last (PeerDialogs.dialogs result) = Some dialog) ->
  iter_messages_reply env
    (IterMessagesArgs.mk (ById (ListMessages.dialog_id args)) (Some false)
       (Some (effective_fetch_limit (ListMessages.unread args)
                (TLDialog.unread_count dialog) (ListMessages.limit args))))
    = mkStream delivered None ->
  fst (run (list_messages env args)) =
  Return (map (TextContent.mk (Some "text")) (omap text_bearing delivered)).
Proof.
  intros Hacq Hreply Hdialog Hit.
  rewrite list_messages_run, Hacq. simpl. rewrite Hreply.
  unfold effective_fetch_limit in Hit.
  destruct (ListMessages.unread args).
  - rewrite (Hdialog eq_refl). simpl. rewrite Hit. reflexivity.
  - simpl. rewrite Hit. reflexivity.
Qed.

Lemma list_messages_text_in_order_witness :
  fst (run (list_messages env_dialog_42 (ListMessages.mk 42 true 10))) =
  Return [ TextContent.mk (Some "text") "newest";
           TextContent.mk (Some "text") "oldest" ].
Proof.
  rewrite (list_messages_text_in_order env_dialog_42 (ListMessages.mk 42 true 10)
             (PeerDialogs.mk [TLDialog.mk 42 3] []) (TLDialog.mk 42 3)
             three_messages).
  - reflexivity.
  - reflexivity.
  - reflexivity.
  - intros _. reflexivity.
  - reflexivity.
Defined.

(** C10.  In [list_messages] with [unread=True] the unread count comes
    from the loop variable left by [for dialog in result.dialogs].  When
    the reply holds no dialog the variable is unbound: the handler raises
    the unbound-variable error and starts no message iteration.  When the
    reply holds several dialogs, the count of the last one is used,
    whatever the peers of the dialogs are. *)
Theorem list_messages_limit_reads_loop_variable env args result :
  acquire_failure env = None ->
  get_peer_dialogs_reply env [ListMessages.dialog_id args]
    = Return (ReplyPeerDialogs result) ->
  ListMessages.unread args = true ->
  (PeerDialogs.dialogs result = [] ->
   exn_class_of (fst (run (list_messages env args))) = Some UnboundLocalError
   /\ snd (run (list_messages env args)) =
      [EvAcquire; EvGetPeerDialogs [ListMessages.dialog_id args]; EvRelease])
  /\
  (forall (before : list TLDialog.t) (last_dialog : TLDialog.t),
     PeerDialogs.dialogs result = before ++ [last_dialog] ->
     snd (run (list_messages env args)) =
     [ EvAcquire;
       EvGetPeerDialogs [ListMessages.dialog_id args];
       EvIterMessages
         (IterMessagesArgs.mk (ById (ListMessages.dialog_id args)) (Some false)
            (Some (Z.min (TLDialog.unread_count last_dialog)
                     (ListMessages.limit args))));
       EvRelease ]).
Proof.
  intros Hacq Hreply Hunread. split.
  - intros Hnil.
    rewrite list_messages_run, Hacq. simpl. rewrite Hreply, Hunread, Hnil.
    split; reflexivity.
  - intros before last_dialog Hdialogs.
    rewrite list_messages_run, Hacq. simpl.
    rewrite Hreply, Hunread, Hdialogs, last_snoc. reflexivity.
Qed.

Lemma list_messages_limit_reads_loop_variable_witness :
  exn_class_of (fst (run (list_messages env_no_dialog (ListMessages.mk 42 true 10))))
    = Some UnboundLocalError
  /\
  snd (run (list_messages env_two_dialogs (ListMessages.mk 42 true 10))) =
  [ EvAcquire;
    EvGetPeerDialogs [42];
    EvIterMessages (IterMessagesArgs.mk (ById 42) (Some false) (Some 10));
    EvRelease ].
Proof.
  split.
  - destruct (list_messages_limit_reads_loop_variable env_no_dialog
                (ListMessages.mk 42 true 10) (PeerDialogs.mk [] [])
                eq_refl eq_refl eq_refl) as [Hempty _].
    apply (Hempty eq_refl).
  - destruct (list_messages_limit_reads_loop_variable env_two_dialogs
                (ListMessages.mk 42 true 10)
                (PeerDialogs.mk [TLDialog.mk 42 3; TLDialog.mk 7 50] [])
                eq_refl eq_refl eq_refl) as [_ Hlast].
    apply (Hlast [TLDialog.mk 42 3] (TLDialog.mk 7 50) eq_refl).
Defined.

(** ** search_hashtags *)

Lemma search_hashtags_scan_trace env m text hashtags st tr :
  search_hashtags_scan env m text hashtags st tr =
  (fst (search_hashtags_scan env m text hashtags st []), tr).
Proof.
  induction hashtags as [|hashtag rest IH]; simpl; [reflexivity|].
  destruct (str_contains _ _); [|exact IH].
  unfold isoformat. destruct (Message.date m); reflexivity.
Qed.

Lemma search_hashtags_step_trace env args st item tr :
  search_hashtags_step env args st item tr =
  (fst (search_hashtags_step env args st item []), tr).
Proof.
  destruct item as [m|cls]; simpl; [|reflexivity].
  destruct (Message.text m) as [text|]; [|reflexivity].
  destruct (String.eqb text ""); [reflexivity|].
  apply search_hashtags_scan_trace.
Qed.

Lemma search_hashtags_loop_trace env args items st tr :
  for_each (search_hashtags_step env args) items st tr =
  (fst (for_each (search_hashtags_step env args) items st []), tr).
Proof.
  revert st. induction items as [|item items IH]; intros st; simpl; [reflexivity|].
  unfold bind. rewrite search_hashtags_step_trace.
  pose proof (search_hashtags_step_trace env args st item []) as Hnil.
  destruct (search_hashtags_step env args st item []) as [o tr0].
  simpl in Hnil. injection Hnil as ->. simpl.
  destruct o as [st'|e]; [apply IH|reflexivity].
Qed.

(** The outcome and the trace of the [try] suite of [search_hashtags], for
    every environment. *)
Lemma search_hashtags_try_run env args :
  run (search_hashtags_try env args) =
  let group_id := SearchHashtags.group_id args in
  let a := IterMessagesArgs.mk (Resolved group_id) None None in
  let it := iter_messages_reply env a in
  match acquire_failure env with
  | Some e => (Raise e, [])
  | None =>
      match get_entity_failure env group_id with
      | Some e => (Raise e, [EvAcquire; EvGetEntity group_id])
      | None =>
          let reached := [EvAcquire; EvGetEntity group_id; EvIterMessages a] in
          match scan_outcome env args (yielded it), failure it with
          | Raise e, _ => (Raise e, reached)
          | Return _, Some e => (Raise e, reached)
          | Return st, None =>
              match open_failure env (export_path args) with
              | Some e => (Raise e, reached)
              | None =>
                  (single_item env
                     ("Successfully exported " +:+ str_int (snd st)
                      +:+ " messages with hashtags "
                      +:+ str_join ", " (SearchHashtags.hashtags args)
                      +:+ " to " +:+ SearchHashtags.output_file args
                      +:+ "." +:+ SearchHashtags.output_format args),
                   reached ++ [EvWriteFile (export_path args) (export_doc args (fst st));
                               EvRelease])
              end
          end
      end
  end.
Proof.
  unfold run, search_hashtags_try, acquire, scan_outcome, single_item,
    TextContent_without_type, release.
  destruct (acquire_failure env) as [e|]; [reflexivity|].
  bind_step. unfold get_entity. do 2 bind_step.
  destruct (get_entity_failure env _) as [e|]; [reflexivity|].
  simpl. unfold iter_messages. do 2 bind_step.
  unfold async_for. unfold bind at 1. unfold bind at 1.
  rewrite search_hashtags_loop_trace.
  destruct (fst (for_each _ _ _ _)) as [st|e]; [|reflexivity].
  simpl. destruct (failure (iter_messages_reply env _)) as [e|]; [reflexivity|].
  simpl. unfold export, export_path, export_doc, open_w.
  destruct (String.eqb (SearchHashtags.output_format args) "csv").
  - unfold bind at 1. unfold bind at 1.
    destruct (open_failure env _) as [e|]; [reflexivity|].
    simpl. unfold bind. simpl.
    destruct (text_content_without_type env _); reflexivity.
  - unfold bind at 1. unfold bind at 1.
    destruct (open_failure env _) as [e|]; [reflexivity|].
    simpl. unfold bind. simpl.
    destruct (text_content_without_type env _); reflexivity.
Qed.

(** [search_hashtags] in terms of its [try] suite: a result is returned as
    it is, a failure goes through the [except] clause, and the trace is
    that of the suite. *)
Lemma search_hashtags_run env args :
  run (search_hashtags env args) =
  (match fst (run (search_hashtags_try env args)) with
   | Return r => Return r
   | Raise e => search_hashtags_caught env e
   end,
   snd (run (search_hashtags_try env args))).
Proof.
  unfold run, search_hashtags, try_except_Exception, search_hashtags_caught,
    search_hashtags_except, single_item, TextContent_without_type.
  destruct (search_hashtags_try env args []) as [[r|e] tr]; simpl; [reflexivity|].
  destruct (is_Exception e); [|reflexivity].
  unfold bind. destruct (text_content_without_type env _); reflexivity.
Qed.

(** ** Sessions acquired and released *)

Lemma list_dialogs_sessions_balanced env args :
  released (snd (run (list_dialogs env args))) =
  acquired (snd (run (list_dialogs env args))).
Proof.
  rewrite list_dialogs_run. destruct (acquire_failure env); reflexivity.
Qed.

Lemma list_messages_sessions_balanced env args :
  released (snd (run (list_messages env args))) =
  acquired (snd (run (list_messages env args))).
Proof.
  rewrite list_messages_run. simpl.
  destruct (acquire_failure env); [reflexivity|].
  destruct (get_peer_dialogs_reply env _) as [[|result|type_repr]|e];
    try reflexivity.
  destruct (ListMessages.unread args); [|reflexivity].
  destruct (last _); reflexivity.
Qed.

(** [search_hashtags] releases the session it acquired only when its
    [try] suite reaches the call of [disconnect], that is when it has
    written its file. *)
Lemma search_hashtags_sessions env args :
  let tr := snd (run (search_hashtags env args)) in
  match acquire_failure env with
  | Some _ => acquired tr = 0%nat /\ released tr = 0%nat
  | None =>
      acquired tr = 1%nat
      /\ (released tr <= 1)%nat
      /\ (released tr = 1%nat <-> exists path doc, In (EvWriteFile path doc) tr)
  end.
Proof.
  rewrite search_hashtags_run, search_hashtags_try_run. simpl.
  destruct (acquire_failure env); [split; reflexivity|].
  assert (Hnone : forall tr : Trace,
             released tr = 0%nat ->
             (forall path doc, ~ In (EvWriteFile path doc) tr) ->
             (released tr <= 1)%nat
             /\ (released tr = 1%nat <-> exists path doc, In (EvWriteFile path doc) tr)).
  { intros tr Hrel Hwrite. split; [lia|]. split; [lia|].
    intros (path & doc & Hin). destruct (Hwrite path doc Hin). }
  destruct (get_entity_failure env _).
  { split; [reflexivity|]. apply Hnone; [reflexivity|].
    intros path doc [H|[H|[]]]; discriminate. }
  destruct (scan_outcome env args _) as [st|e].
  2:{ split; [reflexivity|]. apply Hnone; [reflexivity|].
      intros path doc [H|[H|[H|[]]]]; discriminate. }
  destruct (failure _).
  { split; [reflexivity|]. apply Hnone; [reflexivity|].
    intros path doc [H|[H|[H|[]]]]; discriminate. }
  destruct (open_failure env _).
  { split; [reflexivity|]. apply Hnone; [reflexivity|].
    intros path doc [H|[H|[H|[]]]]; discriminate. }
  simpl. split; [reflexivity|]. split; [unfold released; simpl; lia|].
  split; [|reflexivity]. intros _. eexists _, _. do 3 right. left. reflexivity.
Qed.

(** C1.  [search_hashtags] on a group that the remote service cannot
    resolve: the session has been acquired when [get_entity] fails, the
    failure takes the handler to its [except] clause, and the invocation
    ends without releasing the session; one session is acquired and none
    released. *)
Theorem search_hashtags_leaks_session_on_failure :
  let tr := snd (run (search_hashtags env_unknown_group search_args)) in
  acquire_failure env_unknown_group = None
  /\ get_entity_failure env_unknown_group (SearchHashtags.group_id search_args)
     = Some entity_not_found
  /\ tr = [EvAcquire; EvGetEntity (-1001234567890)]
  /\ acquired tr = 1%nat
  /\ released tr = 0%nat.
Proof. vm_compute. repeat split. Qed.

(** ** Which handler reports its own failures *)

(** C2, as stated, fails for [search_hashtags]: the failure of
    [get_entity] does not leave the handler.  With an [mcp] package that
    gives [type] a default, the handler returns a text item describing the
    failure; with one that requires [type], the [except] clause fails at
    the construction of that item and the handler raises the validation
    error instead of the failure of [get_entity]. *)
Lemma search_hashtags_converts_failure :
  (get_entity_failure env_unknown_group (SearchHashtags.group_id search_args)
     = Some entity_not_found
   /\ fst (run (search_hashtags env_unknown_group search_args)) =
      Return [TextContent.mk (Some "text")
                "Error searching hashtags: Cannot find any entity corresponding to -1001234567890"]
   /\ fst (run (search_hashtags env_unknown_group search_args))
      <> Raise entity_not_found)
  /\
  (get_entity_failure env_unknown_group_strict (SearchHashtags.group_id search_args)
     = Some entity_not_found
   /\ exn_class_of (fst (run (search_hashtags env_unknown_group_strict search_args)))
      = Some ValidationError
   /\ fst (run (search_hashtags env_unknown_group_strict search_args))
      <> Raise entity_not_found).
Proof. vm_compute. repeat split; discriminate. Qed.

Lemma in_list_messages_early_trace dialog_id a :
  ~ In (EvIterMessages a) (list_messages_early_trace dialog_id).
Proof.
  unfold list_messages_early_trace. simpl.
  intros [H|[H|[H|[]]]]; discriminate.
Qed.

Lemma in_list_messages_trace dialog_id a a' :
  In (EvIterMessages a) (list_messages_trace dialog_id a') -> a = a'.
Proof.
  unfold list_messages_trace. simpl.
  intros [H|[H|[H|[H|[]]]]]; try discriminate. congruence.
Qed.

(** C2, amended.  [list_dialogs] and [list_messages] catch nothing: a
    failure of the session provider, of a remote call or of an iteration,
    and the failures that [list_messages] raises itself, are the outcome of
    the handler.  [search_hashtags] catches every failure of class
    [Exception] raised in its [try] suite and builds a single text item
    describing it with [TextContent(text=...)]: the handler returns that
    item when the [mcp] package builds it, and raises the failure of that
    construction otherwise.  So the failures that leave [search_hashtags]
    are those outside [Exception] and those of the construction of its
    item; with a package that builds the item, only the former. *)
Theorem handlers_failure_policy env :
  (forall args e,
     acquire_failure env = Some e ->
     fst (run (list_dialogs env args)) = Raise e)
  /\
  (forall args e,
     acquire_failure env = None ->
     failure (iter_dialogs_reply env (ListDialogs.archived args)
                (ListDialogs.ignore_pinned args)) = Some e ->
     fst (run (list_dialogs env args)) = Raise e)
  /\
  (forall args e,
     acquire_failure env = Some e ->
     fst (run (list_messages env args)) = Raise e)
  /\
  (forall args e,
     acquire_failure env = None ->
     get_peer_dialogs_reply env [ListMessages.dialog_id args] = Raise e ->
     fst (run (list_messages env args)) = Raise e)
  /\
  (forall args,
     acquire_failure env = None ->
     get_peer_dialogs_reply env [ListMessages.dialog_id args] = Return ReplyFalsy ->
     fst (run (list_messages env args)) =
     Raise (mkExn ValueError
              ("Channel not found: " +:+ str_int (ListMessages.dialog_id args))))
  /\
  (forall args type_repr,
     acquire_failure env = None ->
     get_peer_dialogs_reply env [ListMessages.dialog_id args]
       = Return (ReplyOther type_repr) ->
     fst (run (list_messages env args)) =
     Raise (mkExn TypeError ("Unexpected result: " +:+ type_repr)))
  /\
  (forall args a e,
     In (EvIterMessages a) (snd (run (list_messages env args))) ->
     failure (iter_messages_reply env a) = Some e ->
     fst (run (list_messages env args)) = Raise e)
  /\
  (forall args e,
     fst (run (search_hashtags_try env args)) = Raise e ->
     fst (run (search_hashtags env args)) =
     if is_Exception e
     then
       match text_content_without_type env
               ("Error searching hashtags: " +:+ exn_str e) with
       | Return item => Return [item]
       | Raise e' => Raise e'
       end
     else Raise e)
  /\
  (forall args e,
     fst (run (search_hashtags env args)) = Raise e ->
     (is_Exception e = false
      /\ fst (run (search_hashtags_try env args)) = Raise e)
     \/ exists text, text_content_without_type env text = Raise e)
  /\
  ((forall text, exists item, text_content_without_type env text = Return item) ->
   forall args e,
     fst (run (search_hashtags env args)) = Raise e -> is_Exception e = false).
Proof.
  repeat split.
  - intros args e Hacq. rewrite list_dialogs_run, Hacq. reflexivity.
  - intros args e Hacq Hfail. rewrite list_dialogs_run, Hacq. simpl.
    rewrite Hfail. reflexivity.
  - intros args e Hacq. rewrite list_messages_run. simpl. rewrite Hacq. reflexivity.
  - intros args e Hacq Hreply. rewrite list_messages_run. simpl.
    rewrite Hacq, Hreply. reflexivity.
  - intros args Hacq Hreply. rewrite list_messages_run. simpl.
    rewrite Hacq, Hreply. reflexivity.
  - intros args type_repr Hacq Hreply. rewrite list_messages_run. simpl.
    rewrite Hacq, Hreply. reflexivity.
  - intros args a e. rewrite list_messages_run. simpl.
    destruct (acquire_failure env); [intros []|].
    destruct (get_peer_dialogs_reply env _) as [[|result|type_repr]|e0]; simpl;
      try (intros Hin; destruct (in_list_messages_early_trace _ _ Hin)).
    destruct (ListMessages.unread args);
      [destruct (last _);
       [|intros Hin; destruct (in_list_messages_early_trace _ _ Hin)]|];
      simpl; intros Hin Hfail;
      apply in_list_messages_trace in Hin; subst a;
      unfold stream_outcome; rewrite Hfail; reflexivity.
  - intros args e Htry. rewrite search_hashtags_run, Htry. reflexivity.
  - intros args e. rewrite search_hashtags_run. simpl.
    destruct (fst (run (search_hashtags_try env args))) as [r|e0]; [discriminate|].
    unfold search_hashtags_caught, single_item.
    destruct (is_Exception e0) eqn:Hexc.
    + destruct (text_content_without_type env _) as [item|e'] eqn:Hitem;
        [discriminate|].
      intros [= <-]. right. eexists. exact Hitem.
    + intros [= <-]. left. split; [exact Hexc|reflexivity].
  - intros Hbuilds args e. rewrite search_hashtags_run. simpl.
    destruct (fst (run (search_hashtags_try env args))) as [r|e0]; [discriminate|].
    unfold search_hashtags_caught, single_item.
    destruct (is_Exception e0) eqn:Hexc.
    + destruct (Hbuilds ("Error searching hashtags: " +:+ exn_str e0)) as [item ->].
      discriminate.
    + intros [= <-]. exact Hexc.
Qed.

Lemma handlers_failure_policy_witness :
  fst (run (list_dialogs env_offline (ListDialogs.mk false false false)))
    = Raise connection_failed
  /\ fst (run (search_hashtags env_unknown_group search_args)) =
     Return [TextContent.mk (Some "text")
               "Error searching hashtags: Cannot find any entity corresponding to -1001234567890"]
  /\ fst (run (search_hashtags env_unknown_group_strict search_args))
     = Raise type_missing
  /\ is_Exception cancelled = false.
Proof.
  split; [|split; [|split]].
  - apply (proj1 (handlers_failure_policy env_offline)). reflexivity.
  - destruct (handlers_failure_policy env_unknown_group)
      as (_ & _ & _ & _ & _ & _ & _ & Hcaught & _).
    rewrite (Hcaught search_args entity_not_found); reflexivity.
  - destruct (handlers_failure_policy env_unknown_group_strict)
      as (_ & _ & _ & _ & _ & _ & _ & Hcaught & _).
    rewrite (Hcaught search_args entity_not_found); reflexivity.
  - destruct (handlers_failure_policy env_cancelled)
      as (_ & _ & _ & _ & _ & _ & _ & _ & _ & Hleaves).
    apply (Hleaves (fun text => ex_intro _ _ eq_refl) search_args). reflexivity.
Defined.

(** ** The registry *)

(** C3, as stated, fails: a second registration for [ListDialogs] does not
    fail, and it replaces the handler bound by the first. *)
Lemma register_twice_overwrites :
  exists r1 r2,
    register ListDialogs_cls list_dialogs_fn singledispatch = Return r1
    /\ register ListDialogs_cls list_messages_fn r1 = Return r2
    /\ r1 !! "ListDialogs" = Some list_dialogs_fn
    /\ r2 !! "ListDialogs" = Some list_messages_fn
    /\ dispatch r2 ListDialogs_cls = list_messages_fn.
Proof.
  eexists _, _. split; [reflexivity|]. split; [reflexivity|].
  vm_compute. repeat split.
Qed.

(** C3, amended.  Registering a handler for a class that is already bound
    succeeds: the registry then binds the class to the second handler, as
    if the first registration had not happened, the other bindings are
    unchanged, and dispatch on the class selects the second handler.  The
    module itself registers three distinct classes, each with its own
    handler. *)
Theorem register_rebinds (registry : gmap string Handler) cls first second :
  exists r1 r2,
    register cls first registry = Return r1
    /\ register cls second r1 = Return r2
    /\ r2 = <[ __name__ cls := second ]> registry
    /\ r2 !! __name__ cls = Some second
    /\ (forall other, other <> __name__ cls -> r2 !! other = registry !! other)
    /\ (forall bases, dispatch_mro r2 (__name__ cls :: bases) = second)
    /\ (exists r, module_registry = Return r
                 /\ dispatch r ListDialogs_cls = list_dialogs_fn
                 /\ dispatch r ListMessages_cls = list_messages_fn
                 /\ dispatch r SearchHashtags_cls = search_hashtags_fn
                 /\ dispatch r ToolArgs_cls = tool_runner_generic).
Proof.
  exists (<[ __name__ cls := first ]> registry),
         (<[ __name__ cls := second ]> registry).
  split; [reflexivity|].
  split; [unfold register; rewrite insert_insert_eq; reflexivity|].
  split; [reflexivity|].
  split; [apply lookup_insert_eq|].
  split; [intros other Hne; apply lookup_insert_ne; congruence|].
  split; [intros bases; simpl; rewrite lookup_insert_eq; reflexivity|].
  eexists. split; [reflexivity|]. vm_compute. repeat split.
Qed.

(** ** Tool descriptors *)

(** C7, as stated, fails: a class whose docstring is empty is not
    rejected; its descriptor is produced, with an empty description. *)
Lemma tool_description_accepts_empty_doc :
  __doc__ EmptyDoc_cls = Some ""
  /\ tool_description EmptyDoc_cls =
     Return (Tool.mk "EmptyDoc" (Some "") (Schema.mk "EmptyDoc" [] []))
  /\ (forall e, tool_description EmptyDoc_cls <> Raise e).
Proof. repeat split. intros e. discriminate. Qed.

(** C7, amended.  For every class, [tool_description] produces a
    descriptor whose name is the name of the class, whose description is
    its docstring, whatever it is (absent and empty included), and whose
    input schema is derived from its fields; no class is rejected. *)
Theorem tool_description_projects cls :
  exists tool,
    tool_description cls = Return tool
    /\ Tool.name tool = __name__ cls
    /\ Tool.description tool = __doc__ cls
    /\ Tool.inputSchema tool = model_json_schema cls.
Proof. eexists. repeat split. Qed.

(** C8, as stated, fails: [SearchHashtags] has a registered handler and
    declares the credential fields [api_id] and [api_hash]. *)
Lemma SearchHashtags_declares_credentials :
  In SearchHashtags_cls registered_classes
  /\ (exists r, module_registry = Return r
               /\ r !! __name__ SearchHashtags_cls = Some search_hashtags_fn)
  /\ map field_name (credential_fields SearchHashtags_cls) = ["api_id"; "api_hash"].
Proof.
  split; [simpl; tauto|]. split; [|reflexivity].
  eexists. split; [reflexivity|]. vm_compute. reflexivity.
Qed.

(** C8, amended.  Of the three classes with a registered handler,
    [ListDialogs] and [ListMessages] declare no credential field;
    [SearchHashtags] declares [api_id] and [api_hash], both required by its
    schema, and its handler never reads them. *)
Theorem credential_fields_of_registered_tools :
  (exists r, module_registry = Return r
             /\ forall name,
                  is_Some (r !! name) <->
                  name = "object" \/ In name (map __name__ registered_classes))
  /\ credential_fields ListDialogs_cls = []
  /\ credential_fields ListMessages_cls = []
  /\ credential_fields SearchHashtags_cls =
     [mkField "api_id" TInt None; mkField "api_hash" TStr None]
  /\ Schema.required (model_json_schema SearchHashtags_cls) =
     ["group_id"; "hashtags"; "api_id"; "api_hash"]
  /\ (forall env group_id hashtags output_format output_file
             api_id api_hash api_id' api_hash',
        search_hashtags env
          (SearchHashtags.mk group_id hashtags output_format output_file
             api_id api_hash) =
        search_hashtags env
          (SearchHashtags.mk group_id hashtags output_format output_file
             api_id' api_hash')).
Proof.
  split.
  { exists (<[ "SearchHashtags" := search_hashtags_fn ]>
              (<[ "ListMessages" := list_messages_fn ]>
                 (<[ "ListDialogs" := list_dialogs_fn ]>
                    ({[ "object" := tool_runner_generic ]} : gmap string Handler)))).
    split; [reflexivity|]. intros name. simpl.
    rewrite !lookup_insert_is_Some, lookup_singleton_is_Some. split.
    - intros [->|[_ [->|[_ [->|[_ ->]]]]]]; tauto.
    - intros [->|[<-|[<-|[<-|[]]]]].
      + right. split; [discriminate|]. right. split; [discriminate|].
        right. split; [discriminate|]. reflexivity.
      + right. split; [discriminate|]. right. split; [discriminate|]. left.
        reflexivity.
      + right. split; [discriminate|]. left. reflexivity.
      + left. reflexivity. }
  repeat split.
Qed.

(** ** tool_args *)

(** C9.  [tool_args] looks the tool name up in the namespace of the module,
    not in the registry: for a name bound at module level it calls the
    bound object with the arguments given, whatever that object is, and
    for any other name it raises [KeyError].  The namespace binds names
    that are no registered argument types, for instance [ToolArgs] and
    the handler functions. *)
Theorem tool_args_resolves_module_namespace
    (Object : Type) (call : PyObj -> CallArgs -> Outcome Object) :
  (forall tool callee args,
     module_dict !! Tool.name tool = Some callee ->
     tool_args Object call tool args = call callee args)
  /\
  (forall tool args,
     module_dict !! Tool.name tool = None ->
     tool_args Object call tool args =
     Raise (mkExn KeyError ("'" +:+ Tool.name tool +:+ "'")))
  /\
  (module_dict !! "ToolArgs" = Some (ModuleClass ToolArgs_cls)
   /\ module_dict !! "list_dialogs"
      = Some (FunctionObj "mcp_telegram.tools.list_dialogs")
   /\ module_dict !! "sys" = Some (ModuleObj "sys")
   /\ exists r, module_registry = Return r
                /\ r !! "ToolArgs" = None
                /\ r !! "list_dialogs" = None
                /\ r !! "sys" = None).
Proof.
  split; [|split].
  - intros tool callee args Hbound. unfold tool_args. rewrite Hbound. reflexivity.
  - intros tool args Hunbound. unfold tool_args, key_error. rewrite Hunbound.
    reflexivity.
  - split; [vm_compute; reflexivity|]. split; [vm_compute; reflexivity|].
    split; [vm_compute; reflexivity|].
    eexists. split; [reflexivity|]. vm_compute. repeat split.
Qed.

Lemma tool_args_resolves_module_namespace_witness :
  tool_args (PyObj * CallArgs) echo_call
    (Tool.mk "ToolArgs" None no_schema) (mkCallArgs [] [])
    = Return (ModuleClass ToolArgs_cls, mkCallArgs [] [])
  /\
  tool_args (PyObj * CallArgs) echo_call
    (Tool.mk "NoSuchTool" None no_schema) (mkCallArgs [] [("unread", VBool true)])
    = Raise (mkExn KeyError "'NoSuchTool'").
Proof.
  destruct (tool_args_resolves_module_namespace (PyObj * CallArgs) echo_call)
    as (Hbound & Hunbound & _).
  split.
  - apply (Hbound (Tool.mk "ToolArgs" None no_schema) (ModuleClass ToolArgs_cls)).
    vm_compute. reflexivity.
  - apply (Hunbound (Tool.mk "NoSuchTool" None no_schema)).
    vm_compute. reflexivity.
Defined.

(** * Further properties *)

(** ** Dispatch through the registry of the module *)

Lemma module_registry_eq : module_registry = Return registry_of_module.
Proof. reflexivity. Qed.



(** X1.  With the registry that the module builds, [tool_runner] hands a
    value of each of the three argument classes to the handler decorated
    for that class: the call behaves as the handler itself. *)
Theorem tool_runner_routes_registered_values env :
  exists registry,
    module_registry = Return registry
    /\ (forall a, tool_runner env registry (ListDialogs_val a) = list_dialogs env a)
    /\ (forall a, tool_runner env registry (ListMessages_val a) = list_messages env a)
    /\ (forall a, tool_runner env registry (SearchHashtags_val a)
                  = search_hashtags env a).
Proof.
  exists registry_of_module. split; [exact module_registry_eq|].
  split; [|split]; intros a; reflexivity.
Qed.



(** X3.  [tool_runner] runs the handler of a registered class on the
    instances of the classes derived from it: for a class that is not
    registered itself, an instance derived from a [ListDialogs],
    [ListMessages] or [SearchHashtags] value is handled as that value is,
    on the inherited fields, and never reaches the generic body. *)
Theorem tool_runner_runs_inherited_handler env registry cls :
  module_registry = Return registry ->
  registry !! __name__ cls = None ->
  (forall a, tool_runner env registry (Derived_val cls (ListDialogs_val a))
             = list_dialogs env a)
  /\ (forall a, tool_runner env registry (Derived_val cls (ListMessages_val a))
                = list_messages env a)
  /\ (forall a, tool_runner env registry (Derived_val cls (SearchHashtags_val a))
                = search_hashtags env a).
Proof.
  rewrite module_registry_eq. intros [= <-] Hcls.
  assert (Hbase : forall base handler,
             dispatch registry_of_module (type_of base) = handler ->
             dispatch registry_of_module (type_of (Derived_val cls base)) = handler).
  { intros base handler Hd. unfold dispatch. simpl. rewrite Hcls. exact Hd. }
  split; [|split]; intros a; unfold tool_runner.
  - rewrite (Hbase (ListDialogs_val a) list_dialogs_fn); [reflexivity|].
    vm_compute. reflexivity.
  - rewrite (Hbase (ListMessages_val a) list_messages_fn); [reflexivity|].
    vm_compute. reflexivity.
  - rewrite (Hbase (SearchHashtags_val a) search_hashtags_fn); [reflexivity|].
    vm_compute. reflexivity.
Qed.

Lemma tool_runner_runs_inherited_handler_witness :
  run (tool_runner env_three_dialogs registry_of_module
         (Derived_val UnreadDialogs_cls
            (ListDialogs_val (ListDialogs.mk true false false)))) =
  (Return [ TextContent.mk (Some "text") "name='Team' id=-1001234 unread=5 mentions=1";
            TextContent.mk (Some "text") "name='Bob' id=103 unread=2 mentions=0" ],
   [EvAcquire; EvIterDialogs false false; EvRelease]).
Proof.
  destruct (tool_runner_runs_inherited_handler env_three_dialogs
              registry_of_module UnreadDialogs_cls) as (Hdialogs & _).
  - reflexivity.
  - vm_compute. reflexivity.
  - rewrite Hdialogs. vm_compute. reflexivity.
Defined.

(** ** list_dialogs and list_messages, further *)

Lemma filter_all {A} (keep : A -> bool) (xs : list A) :
  (forall x, keep x = true) -> List.filter keep xs = xs.
Proof.
  intros Hall. induction xs as [|x xs IH]; simpl; [reflexivity|].
  rewrite Hall, IH. reflexivity.
Qed.

(** X4.  [list_dialogs] without [unread]: when the iteration completes,
    every dialog delivered yields a line, those with no unread message
    included, in iteration order. *)
Theorem list_dialogs_lists_all_without_unread env args (dialogs : list Dialog.t) :
  ListDialogs.unread args = false ->
  acquire_failure env = None ->
  iter_dialogs_reply env (ListDialogs.archived args) (ListDialogs.ignore_pinned args)
    = mkStream dialogs None ->
  exists response,
    fst (run (list_dialogs env args)) = Return response
    /\ map TextContent.text response = map dialog_line dialogs
    /\ length response = length dialogs.
Proof.
  intros Hunread Hacq Hit. rewrite list_dialogs_run, Hacq, Hit. simpl.
  rewrite filter_all by (intros d; unfold list_dialogs_keep; rewrite Hunread;
                         reflexivity).
  eexists. split; [reflexivity|]. split.
  - rewrite map_map. reflexivity.
  - apply length_map.
Qed.

Lemma list_dialogs_lists_all_without_unread_witness :
  exists response,
    fst (run (list_dialogs env_three_dialogs (ListDialogs.mk false true false)))
      = Return response
    /\ map TextContent.text response =
       [ "name='Alice' id=101 unread=0 mentions=0";
         "name='Team' id=-1001234 unread=5 mentions=1";
         "name='Bob' id=103 unread=2 mentions=0" ]
    /\ length response = 3%nat.
Proof.
  destruct (list_dialogs_lists_all_without_unread env_three_dialogs
              (ListDialogs.mk false true false) three_dialogs
              eq_refl eq_refl eq_refl) as (response & Hrun & Htext & Hlen).
  exists response. split; [exact Hrun|]. split; [|exact Hlen].
  rewrite Htext. vm_compute. reflexivity.
Defined.

(** X5.  [list_dialogs] makes one remote call, the iteration over the
    dialogs, with the flags [archived] and [ignore_pinned] of the request
    as they are; the [unread] flag is not sent, the filter is applied to
    what the service delivers.  When no session can be acquired, no remote
    call is made. *)
Theorem list_dialogs_single_remote_call env args :
  (acquire_failure env = None ->
   snd (run (list_dialogs env args)) =
   [ EvAcquire;
     EvIterDialogs (ListDialogs.archived args) (ListDialogs.ignore_pinned args);
     EvRelease ])
  /\
  (forall e, acquire_failure env = Some e ->
             run (list_dialogs env args) = (Raise e, [])).
Proof.
  split.
  - intros Hacq. rewrite list_dialogs_run, Hacq. reflexivity.
  - intros e Hacq. rewrite list_dialogs_run, Hacq. reflexivity.
Qed.

Lemma list_dialogs_single_remote_call_witness :
  snd (run (list_dialogs env_three_dialogs (ListDialogs.mk true true false))) =
  [EvAcquire; EvIterDialogs true false; EvRelease]
  /\
  run (list_dialogs env_offline (ListDialogs.mk true true false)) =
  (Raise connection_failed, []).
Proof.
  split.
  - apply (proj1 (list_dialogs_single_remote_call env_three_dialogs
                    (ListDialogs.mk true true false))).
    reflexivity.
  - apply (proj2 (list_dialogs_single_remote_call env_offline
                    (ListDialogs.mk true true false))).
    reflexivity.
Defined.

(** X6.  The handlers that enter their session with [async with] release
    it on every exit: after any invocation of [list_dialogs] or of
    [list_messages], whether it returns or raises, as many sessions are
    released as were acquired, and at most one was acquired. *)
Theorem scoped_handlers_release_every_path env :
  (forall args,
     let tr := snd (run (list_dialogs env args)) in
     released tr = acquired tr /\ (acquired tr <= 1)%nat)
  /\
  (forall args,
     let tr := snd (run (list_messages env args)) in
     released tr = acquired tr /\ (acquired tr <= 1)%nat).
Proof.
  split; intros args; simpl.
  - split; [apply list_dialogs_sessions_balanced|].
    rewrite list_dialogs_run.
    destruct (acquire_failure env); simpl; unfold acquired; simpl; lia.
  - split; [apply list_messages_sessions_balanced|].
    rewrite list_messages_run. simpl.
    destruct (acquire_failure env); [unfold acquired; simpl; lia|].
    destruct (get_peer_dialogs_reply env _) as [[|result|type_repr]|e];
      try (unfold acquired; simpl; lia).
    destruct (ListMessages.unread args); [destruct (last _)|];
      unfold acquired; simpl; lia.
Qed.

(** X7.  Whenever [list_messages] starts a message iteration, the reply to
    the dialog request was a [PeerDialogs], and the iteration is asked for
    the dialog of the request, newest first ([reverse=False]), with a limit
    that never exceeds [args.limit] and equals it when [unread] is not
    set. *)
Theorem list_messages_iteration_arguments env args a :
  In (EvIterMessages a) (snd (run (list_messages env args))) ->
  exists result limit,
    get_peer_dialogs_reply env [ListMessages.dialog_id args]
      = Return (ReplyPeerDialogs result)
    /\ a = IterMessagesArgs.mk (ById (ListMessages.dialog_id args)) (Some false)
             (Some limit)
    /\ limit <= ListMessages.limit args
    /\ (ListMessages.unread args = false -> limit = ListMessages.limit args).
Proof.
  rewrite list_messages_run. simpl.
  destruct (acquire_failure env); [intros []|].
  destruct (get_peer_dialogs_reply env _) as [[|result|type_repr]|e]; simpl;
    try (intros Hin; destruct (in_list_messages_early_trace _ _ Hin)).
  destruct (ListMessages.unread args).
  - destruct (last _) as [dialog|];
      [|intros Hin; destruct (in_list_messages_early_trace _ _ Hin)].
    simpl. intros Hin. apply in_list_messages_trace in Hin. subst a.
    exists result, (Z.min (TLDialog.unread_count dialog) (ListMessages.limit args)).
    repeat split; [lia|discriminate].
  - simpl. intros Hin. apply in_list_messages_trace in Hin. subst a.
    exists result, (ListMessages.limit args). repeat split. lia.
Qed.

Lemma list_messages_iteration_arguments_witness :
  exists result limit,
    get_peer_dialogs_reply env_two_dialogs [42] = Return (ReplyPeerDialogs result)
    /\ IterMessagesArgs.mk (ById 42) (Some false) (Some 10)
       = IterMessagesArgs.mk (ById 42) (Some false) (Some limit)
    /\ limit <= 10
    /\ (true = false -> limit = 10).
Proof.
  apply (list_messages_iteration_arguments env_two_dialogs
           (ListMessages.mk 42 true 10)
           (IterMessagesArgs.mk (ById 42) (Some false) (Some 10))).
  vm_compute. tauto.
Defined.

Lemma text_items_have_text (items : list Item) :
  Forall (fun c => TextContent.type c = Some "text" /\ TextContent.text c <> "")
    (text_items items).
Proof.
  unfold text_items. induction items as [|item items IH]; simpl; [constructor|].
  destruct (text_bearing item) as [text|] eqn:Htext; simpl; [|exact IH].
  constructor; [|exact IH]. split; [reflexivity|]. simpl.
  destruct item as [m|cls]; [|discriminate]. simpl in Htext.
  unfold truthy_text in Htext. destruct (Message.text m) as [t|]; [|discriminate].
  destruct (String.eqb_spec t ""); simpl in Htext; [discriminate|].
  injection Htext as <-. assumption.
Qed.

(** X8.  Every item that [list_messages] returns is a text item with a
    non-empty text: a message without text never yields an item, not even
    an empty one. *)
Theorem list_messages_items_have_text env args response :
  fst (run (list_messages env args)) = Return response ->
  Forall (fun c => TextContent.type c = Some "text" /\ TextContent.text c <> "")
    response.
Proof.
  rewrite list_messages_run. simpl.
  destruct (acquire_failure env); [discriminate|].
  destruct (get_peer_dialogs_reply env _) as [[|result|type_repr]|e];
    try discriminate.
  assert (Hstream : forall it, stream_outcome it = Return response ->
            Forall (fun c => TextContent.type c = Some "text"
                             /\ TextContent.text c <> "") response).
  { intros it. unfold stream_outcome. destruct (failure it); [discriminate|].
    intros [= <-]. apply text_items_have_text. }
  destruct (ListMessages.unread args); [destruct (last _); [|discriminate]|];
    simpl; apply Hstream.
Qed.

Lemma list_messages_items_have_text_witness :
  Forall (fun c => TextContent.type c = Some "text" /\ TextContent.text c <> "")
    [ TextContent.mk (Some "text") "newest"; TextContent.mk (Some "text") "oldest" ].
Proof.
  apply (list_messages_items_have_text env_dialog_42 (ListMessages.mk 42 true 10)).
  vm_compute. reflexivity.
Defined.

(** X9.  Without [unread], [list_messages] does not read the content of the
    [PeerDialogs] reply: whatever dialogs and messages it holds, none
    included, the iteration is started with [limit = args.limit] and its
    text items are the result. *)
Theorem list_messages_without_unread_ignores_reply env args result :
  ListMessages.unread args = false ->
  acquire_failure env = None ->
  get_peer_dialogs_reply env [ListMessages.dialog_id args]
    = Return (ReplyPeerDialogs result) ->
  let a := IterMessagesArgs.mk (ById (ListMessages.dialog_id args)) (Some false)
             (Some (ListMessages.limit args)) in
  run (list_messages env args) =
  (match failure (iter_messages_reply env a) with
   | Some e => Raise e
   | None =>
       Return (map (TextContent.mk (Some "text"))
                 (omap text_bearing (yielded (iter_messages_reply env a))))
   end,
   [ EvAcquire; EvGetPeerDialogs [ListMessages.dialog_id args];
     EvIterMessages a; EvRelease ]).
Proof.
  intros Hunread Hacq Hreply. rewrite list_messages_run. simpl.
  rewrite Hacq, Hreply, Hunread. reflexivity.
Qed.

Lemma list_messages_without_unread_ignores_reply_witness :
  run (list_messages env_no_dialog (ListMessages.mk 42 false 10)) =
  (Return [ TextContent.mk (Some "text") "newest";
            TextContent.mk (Some "text") "oldest" ],
   [ EvAcquire; EvGetPeerDialogs [42];
     EvIterMessages (IterMessagesArgs.mk (ById 42) (Some false) (Some 10));
     EvRelease ]).
Proof.
  rewrite (list_messages_without_unread_ignores_reply env_no_dialog
             (ListMessages.mk 42 false 10) (PeerDialogs.mk [] [])
             eq_refl eq_refl eq_refl).
  vm_compute. reflexivity.
Defined.

(** ** search_hashtags, further *)

(** An invariant of a [for] loop, indexed by the items already visited. *)
Lemma for_each_invariant {A S} (I : list A -> S -> Prop) (body : S -> A -> M S) :
  (forall visited x s s' tr tr',
     I visited s -> body s x tr = (Return s', tr') -> I (visited ++ [x]) s') ->
  forall xs visited s s' tr tr',
    I visited s -> for_each body xs s tr = (Return s', tr') -> I (visited ++ xs) s'.
Proof.
  intros Hbody xs. induction xs as [|x xs IH]; intros visited s s' tr tr' HI; simpl.
  - intros [= <- _]. rewrite app_nil_r. exact HI.
  - unfold bind. destruct (body s x tr) as [[s1|e] tr1] eqn:Hstep; [|discriminate].
    intros Hrest. change (x :: xs) with ([x] ++ xs). rewrite app_assoc.
    apply (IH _ s1 s' tr1 tr'); [|exact Hrest].
    apply (Hbody visited x s s1 tr tr1 HI Hstep).
Qed.

Lemma search_hashtags_scan_cases env m text hashtags st st' tr tr' :
  search_hashtags_scan env m text hashtags st tr = (Return st', tr') ->
  st' = st
  \/ exists date hashtag,
       Message.date m = Some date
       /\ In hashtag hashtags
       /\ hashtag_matches env hashtag text = true
       /\ st' = (fst st ++ [hit_of m date text hashtag], snd st + 1).
Proof.
  induction hashtags as [|h rest IH]; simpl.
  - intros [= <- _]. left. reflexivity.
  - destruct (str_contains _ _) eqn:Hmatch.
    + unfold isoformat, bind. destruct (Message.date m) as [date|]; [|discriminate].
      simpl. intros [= <- _]. right. exists date, h.
      repeat split; [left; reflexivity|exact Hmatch].
    + intros Hrest. destruct (IH Hrest) as [->|(date & h' & Hd & Hin & Hm & ->)].
      * left. reflexivity.
      * right. exists date, h'. repeat split; try assumption. right. exact Hin.
Qed.

Lemma search_hashtags_step_cases env args item st st' tr tr' :
  search_hashtags_step env args st item tr = (Return st', tr') ->
  st' = st
  \/ exists m text date hashtag,
       item = ItemMessage m
       /\ Message.text m = Some text
       /\ text <> ""
       /\ Message.date m = Some date
       /\ In hashtag (SearchHashtags.hashtags args)
       /\ hashtag_matches env hashtag text = true
       /\ st' = (fst st ++ [hit_of m date text hashtag], snd st + 1).
Proof.
  destruct item as [m|cls]; simpl; [|discriminate].
  destruct (Message.text m) as [text|] eqn:Htext;
    [|intros [= <- _]; left; reflexivity].
  destruct (String.eqb_spec text "") as [->|Hne];
    [intros [= <- _]; left; reflexivity|].
  intros Hscan.
  destruct (search_hashtags_scan_cases _ _ _ _ _ _ _ _ Hscan)
    as [->|(date & h & Hd & Hin & Hm & ->)]; [left; reflexivity|].
  right. exists m, text, date, h. repeat split; assumption.
Qed.

Lemma hit_from_more env args items x hit :
  hit_from env args items hit -> hit_from env args (items ++ [x]) hit.
Proof.
  intros (Hin & Hm & Hne & m & Hitem & Htext). repeat split; try assumption.
  exists m. split; [apply in_or_app; left; exact Hitem|exact Htext].
Qed.

(** What the scan of the items keeps true of the pair of [messages] and
    [total_count]. *)
Lemma scan_outcome_invariant env args items st :
  scan_outcome env args items = Return st ->
  snd st = Z.of_nat (length (fst st))
  /\ (length (fst st) <= length items)%nat
  /\ Forall (hit_from env args items) (fst st).
Proof.
  unfold scan_outcome. intros Hscan.
  destruct (for_each (search_hashtags_step env args) items ([], 0) [])
    as [o tr] eqn:Hloop. simpl in Hscan. subst o.
  apply (for_each_invariant
           (fun visited s =>
              snd s = Z.of_nat (length (fst s))
              /\ (length (fst s) <= length visited)%nat
              /\ Forall (hit_from env args visited) (fst s))
           (search_hashtags_step env args)) with (visited := []) in Hloop.
  - exact Hloop.
  - clear. intros visited x s s' tr tr' (Hcount & Hlen & Hhits) Hstep.
    assert (Hmore : Forall (hit_from env args (visited ++ [x])) (fst s)).
    { eapply Forall_impl; [exact Hhits|]. intros hit. apply hit_from_more. }
    destruct (search_hashtags_step_cases _ _ _ _ _ _ _ Hstep)
      as [->|(m & text & date & h & -> & Htext & Hne & Hd & Hin & Hm & ->)].
    + rewrite length_app. simpl. repeat split; [exact Hcount|lia|exact Hmore].
    + simpl. rewrite !length_app. simpl. repeat split; [lia|lia|].
      apply Forall_app. split; [exact Hmore|]. constructor; [|constructor].
      repeat split; simpl; try assumption.
      exists m. split; [apply in_or_app; right; left; reflexivity|exact Htext].
  - simpl. repeat split; [lia|constructor].
Qed.

(** What a written file tells about the invocation of [search_hashtags]
    that wrote it. *)
Lemma search_hashtags_write_inversion env args path doc :
  In (EvWriteFile path doc) (snd (run (search_hashtags env args))) ->
  let group_id := SearchHashtags.group_id args in
  let a := IterMessagesArgs.mk (Resolved group_id) None None in
  acquire_failure env = None
  /\ get_entity_failure env group_id = None
  /\ failure (iter_messages_reply env a) = None
  /\ exists st,
       scan_outcome env args (yielded (iter_messages_reply env a)) = Return st
       /\ path = export_path args
       /\ doc = export_doc args (fst st)
       /\ snd (run (search_hashtags env args)) =
          [ EvAcquire; EvGetEntity group_id; EvIterMessages a;
            EvWriteFile path doc; EvRelease ]
       /\ fst (run (search_hashtags env args)) =
          match text_content_without_type env (success_text args (snd st)) with
          | Return item => Return [item]
          | Raise e => search_hashtags_caught env e
          end.
Proof.
  rewrite search_hashtags_run, search_hashtags_try_run. simpl.
  destruct (acquire_failure env); [intros []|].
  destruct (get_entity_failure env _);
    [simpl; intros [H|[H|[]]]; discriminate|].
  destruct (scan_outcome env args _) as [st|e];
    [|simpl; intros [H|[H|[H|[]]]]; discriminate].
  destruct (failure _); [simpl; intros [H|[H|[H|[]]]]; discriminate|].
  destruct (open_failure env _); [simpl; intros [H|[H|[H|[]]]]; discriminate|].
  simpl. intros [H|[H|[H|[H|[H|[]]]]]]; try discriminate.
  injection H as <- <-. repeat split. exists st. repeat split.
  unfold single_item, success_text.
  destruct (text_content_without_type env _); reflexivity.
Qed.

(** X10.  One record per message, under the first matching hashtag: for a
    message with a non-empty text and a date, [search_hashtags] appends a
    single record, whose hashtag is the first one of the request, in its
    order, that occurs in the text ignoring case, even if later ones occur
    too; the count grows by one. *)
Theorem search_hashtags_records_first_matching_hashtag
    env args m text date (before after : list string) hashtag st :
  Message.text m = Some text ->
  text <> "" ->
  Message.date m = Some date ->
  SearchHashtags.hashtags args = before ++ hashtag :: after ->
  Forall (fun h => str_contains (str_lower env h) (str_lower env text) = false) before ->
  str_contains (str_lower env hashtag) (str_lower env text) = true ->
  search_hashtags_step env args st (ItemMessage m) [] =
  (Return (fst st ++ [Hit.mk date (Message.sender_id m)
                        match Message.sender m with
                        | Some sender => Sender.username sender
                        | None => Some "Unknown"
                        end
                        text hashtag],
           snd st + 1),
   []).
Proof.
  intros Htext Hne Hdate Htags Hbefore Hmatch. simpl. rewrite Htext.
  destruct (String.eqb_spec text ""); [contradiction|]. rewrite Htags. clear Htags.
  induction Hbefore as [|h before Hh _ IH]; simpl.
  - rewrite Hmatch. unfold isoformat, bind. rewrite Hdate. reflexivity.
  - rewrite Hh. exact IH.
Qed.

Lemma search_hashtags_records_first_matching_hashtag_witness :
  search_hashtags_step env_group search_args ([], 0) (ItemMessage two_tags_message) [] =
  (Return ([Hit.mk "2024-05-02T08:00:00+00:00" None (Some "Unknown")
              "I am new #IAM #intro" "#intro"], 1),
   []).
Proof.
  apply (search_hashtags_records_first_matching_hashtag env_group search_args
           two_tags_message "I am new #IAM #intro" "2024-05-02T08:00:00+00:00"
           [] ["#iam"] "#intro" ([], 0)).
  - reflexivity.
  - discriminate.
  - reflexivity.
  - reflexivity.
  - constructor.
  - vm_compute. reflexivity.
Defined.

(** X11.  The count that [search_hashtags] reports is the number of records
    it exported: whenever a file is written, its content is made of the
    records collected, of which there are no more than messages delivered,
    and the text given to [TextContent(text=...)] is the success text with
    their number; the handler returns the item that the [mcp] package
    builds from it. *)
Theorem search_hashtags_count_is_number_of_records env args path doc :
  In (EvWriteFile path doc) (snd (run (search_hashtags env args))) ->
  exists hits : list Hit.t,
    doc = (if String.eqb (SearchHashtags.output_format args) "csv"
           then CsvDoc ["date"; "user_id"; "username"; "message"; "hashtag"] hits
           else TxtDoc (flat_map txt_record hits))
    /\ (length hits <=
        length (yielded (iter_messages_reply env
                           (IterMessagesArgs.mk
                              (Resolved (SearchHashtags.group_id args)) None None))))%nat
    /\ forall item,
         text_content_without_type env
           ("Successfully exported " +:+ str_int (Z.of_nat (length hits))
            +:+ " messages with hashtags "
            +:+ str_join ", " (SearchHashtags.hashtags args)
            +:+ " to " +:+ SearchHashtags.output_file args
            +:+ "." +:+ SearchHashtags.output_format args) = Return item ->
         fst (run (search_hashtags env args)) = Return [item].
Proof.
  intros Hin.
  destruct (search_hashtags_write_inversion env args path doc Hin)
    as (_ & _ & _ & st & Hscan & _ & Hdoc & _ & Hrun).
  destruct (scan_outcome_invariant env args _ st Hscan) as (Hcount & Hlen & _).
  exists (fst st). split; [exact Hdoc|]. split; [exact Hlen|].
  intros item Hitem. rewrite Hrun. unfold success_text. rewrite Hcount, Hitem.
  reflexivity.
Qed.

Lemma search_hashtags_count_is_number_of_records_witness :
  fst (run (search_hashtags env_group search_args)) =
  Return [TextContent.mk (Some "text")
            "Successfully exported 2 messages with hashtags #intro, #iam to intro_messages.csv"].
Proof.
  destruct (search_hashtags_count_is_number_of_records env_group search_args
              "intro_messages.csv"
              (CsvDoc csv_fieldnames
                 [ Hit.mk "2024-05-01T10:00:00+00:00" (Some 7) (Some "alice")
                     "Hello #Intro" "#intro";
                   Hit.mk "2024-05-01T10:00:00+00:00" (Some 7) (Some "alice")
                     "#iam new" "#iam" ]))
    as (hits & Hdoc & _ & Hitem).
  - vm_compute. tauto.
  - injection Hdoc as <-. apply Hitem. reflexivity.
Defined.

(** X12.  Every record that [search_hashtags] exports comes from a message
    delivered and from a hashtag of the request: its hashtag is one of
    [args.hashtags] and occurs, ignoring case, in its message, which is the
    non-empty text of a delivered message. *)
Theorem search_hashtags_records_are_matches env args path doc :
  In (EvWriteFile path doc) (snd (run (search_hashtags env args))) ->
  exists hits : list Hit.t,
    doc = export_doc args hits
    /\ Forall (fun hit =>
                 In (Hit.hashtag hit) (SearchHashtags.hashtags args)
                 /\ str_contains (str_lower env (Hit.hashtag hit))
                      (str_lower env (Hit.message hit)) = true
                 /\ Hit.message hit <> ""
                 /\ exists m,
                      In (ItemMessage m)
                        (yielded (iter_messages_reply env
                                    (IterMessagesArgs.mk
                                       (Resolved (SearchHashtags.group_id args))
                                       None None)))
                      /\ Message.text m = Some (Hit.message hit))
         hits.
Proof.
  intros Hin.
  destruct (search_hashtags_write_inversion env args path doc Hin)
    as (_ & _ & _ & st & Hscan & _ & Hdoc & _).
  destruct (scan_outcome_invariant env args _ st Hscan) as (_ & _ & Hhits).
  exists (fst st). split; [exact Hdoc|]. exact Hhits.
Qed.

Lemma search_hashtags_records_are_matches_witness :
  exists hits : list Hit.t,
    CsvDoc csv_fieldnames
      [ Hit.mk "2024-05-01T10:00:00+00:00" (Some 7) (Some "alice") "Hello #Intro" "#intro";
        Hit.mk "2024-05-01T10:00:00+00:00" (Some 7) (Some "alice") "#iam new" "#iam" ]
    = export_doc search_args hits
    /\ Forall (fun hit =>
                 In (Hit.hashtag hit) (SearchHashtags.hashtags search_args)
                 /\ str_contains (str_lower env_group (Hit.hashtag hit))
                      (str_lower env_group (Hit.message hit)) = true
                 /\ Hit.message hit <> ""
                 /\ exists m,
                      In (ItemMessage m)
                        (yielded (iter_messages_reply env_group
                                    (IterMessagesArgs.mk
                                       (Resolved (SearchHashtags.group_id search_args))
                                       None None)))
                      /\ Message.text m = Some (Hit.message hit))
         hits.
Proof.
  apply (search_hashtags_records_are_matches env_group search_args
           "intro_messages.csv").
  vm_compute. tauto.
Defined.

(** X13.  [search_hashtags] writes nothing before the search is complete: a
    file is written only when the group was resolved, the iteration over
    its messages ended without failure and every item was scanned; it is
    then the only file written, and the session is released after it. *)
Theorem search_hashtags_writes_after_complete_scan env args path doc :
  In (EvWriteFile path doc) (snd (run (search_hashtags env args))) ->
  let a := IterMessagesArgs.mk (Resolved (SearchHashtags.group_id args)) None None in
  get_entity_failure env (SearchHashtags.group_id args) = None
  /\ failure (iter_messages_reply env a) = None
  /\ (exists st,
        fst (for_each (search_hashtags_step env args)
               (yielded (iter_messages_reply env a)) ([], 0) []) = Return st)
  /\ snd (run (search_hashtags env args)) =
     [ EvAcquire; EvGetEntity (SearchHashtags.group_id args); EvIterMessages a;
       EvWriteFile path doc; EvRelease ].
Proof.
  intros Hin.
  destruct (search_hashtags_write_inversion env args path doc Hin)
    as (_ & Hentity & Hfail & st & Hscan & _ & _ & Htrace & _).
  split; [exact Hentity|]. split; [exact Hfail|]. split.
  - exists st. exact Hscan.
  - exact Htrace.
Qed.

Lemma search_hashtags_writes_after_complete_scan_witness :
  snd (run (search_hashtags env_group search_args_no_hashtag)) =
  [ EvAcquire; EvGetEntity (-1001234567890);
    EvIterMessages (IterMessagesArgs.mk (Resolved (-1001234567890)) None None);
    EvWriteFile "intro_messages.csv" (CsvDoc csv_fieldnames []); EvRelease ].
Proof.
  destruct (search_hashtags_writes_after_complete_scan env_group
              search_args_no_hashtag "intro_messages.csv" (CsvDoc csv_fieldnames []))
    as (_ & _ & _ & Htrace).
  - vm_compute. tauto.
  - exact Htrace.
Defined.

(** X14.  The file that [search_hashtags] writes: the CSV document, with
    the five field names, in [output_file.csv] when [output_format] is
    ["csv"]; for every other format the text report in [output_file.txt],
    while the success text, of which the handler returns the item that the
    [mcp] package builds, names [output_file.output_format]. *)
Theorem search_hashtags_export_file env args path doc :
  In (EvWriteFile path doc) (snd (run (search_hashtags env args))) ->
  (SearchHashtags.output_format args = "csv"
   /\ path = SearchHashtags.output_file args +:+ ".csv"
   /\ exists rows, doc = CsvDoc ["date"; "user_id"; "username"; "message"; "hashtag"] rows)
  \/
  (SearchHashtags.output_format args <> "csv"
   /\ path = SearchHashtags.output_file args +:+ ".txt"
   /\ (exists lines, doc = TxtDoc lines)
   /\ exists total_count,
        forall item,
          text_content_without_type env
            ("Successfully exported " +:+ str_int total_count
             +:+ " messages with hashtags "
             +:+ str_join ", " (SearchHashtags.hashtags args)
             +:+ " to " +:+ SearchHashtags.output_file args
             +:+ "." +:+ SearchHashtags.output_format args) = Return item ->
          fst (run (search_hashtags env args)) = Return [item]).
Proof.
  intros Hin.
  destruct (search_hashtags_write_inversion env args path doc Hin)
    as (_ & _ & _ & st & _ & Hpath & Hdoc & _ & Hrun).
  unfold export_path in Hpath. unfold export_doc in Hdoc.
  destruct (String.eqb_spec (SearchHashtags.output_format args) "csv") as [Hcsv|Hcsv].
  - left. split; [exact Hcsv|]. split; [exact Hpath|]. eexists. exact Hdoc.
  - right. split; [exact Hcsv|]. split; [exact Hpath|]. split.
    + eexists. exact Hdoc.
    + exists (snd st). intros item Hitem. rewrite Hrun. unfold success_text.
      rewrite Hitem. reflexivity.
Qed.

Lemma search_hashtags_export_file_witness :
  exists lines total_count,
    In (EvWriteFile "intro_messages.txt" (TxtDoc lines))
      (snd (run (search_hashtags env_group search_args_json)))
    /\ fst (run (search_hashtags env_group search_args_json)) =
       Return [TextContent.mk (Some "text")
                 ("Successfully exported " +:+ str_int total_count
                  +:+ " messages with hashtags #intro, #iam to intro_messages.json")].
Proof.
  assert (Hin : exists doc,
             In (EvWriteFile "intro_messages.txt" doc)
               (snd (run (search_hashtags env_group search_args_json)))).
  { eexists. vm_compute. do 3 right. left. reflexivity. }
  destruct Hin as [doc Hin].
  destruct (search_hashtags_export_file env_group search_args_json
              "intro_messages.txt" doc Hin)
    as [(Hcsv & _)|(_ & _ & (lines & ->) & total_count & Hrun)];
    [discriminate Hcsv|].
  exists lines, total_count. split; [exact Hin|]. apply Hrun. reflexivity.
Defined.

Lemma search_hashtags_scan_nothing env args items st tr :
  SearchHashtags.hashtags args = [] ->
  Forall is_message items ->
  for_each (search_hashtags_step env args) items st tr = (Return st, tr).
Proof.
  intros Htags Hitems. induction Hitems as [|item items Hitem _ IH]; simpl;
    [reflexivity|].
  destruct item as [m|cls]; [|destruct Hitem].
  unfold bind. simpl. rewrite Htags.
  destruct (Message.text m) as [text|]; [|exact IH].
  destruct (String.eqb text ""); exact IH.
Qed.

(** X15.  [search_hashtags] with an empty list of hashtags: when the group
    resolves, the iteration delivers messages without failure and the file
    can be opened, no message is recorded whatever its text, a document
    without records is written, the session is released, and the handler
    returns the item that the [mcp] package builds from the text reporting
    0 messages. *)
Theorem search_hashtags_without_hashtags env args (items : list Item) item :
  SearchHashtags.hashtags args = [] ->
  acquire_failure env = None ->
  get_entity_failure env (SearchHashtags.group_id args) = None ->
  iter_messages_reply env
    (IterMessagesArgs.mk (Resolved (SearchHashtags.group_id args)) None None)
    = mkStream items None ->
  Forall is_message items ->
  open_failure env (export_path args) = None ->
  text_content_without_type env
    ("Successfully exported 0 messages with hashtags  to "
     +:+ SearchHashtags.output_file args
     +:+ "." +:+ SearchHashtags.output_format args) = Return item ->
  run (search_hashtags env args) =
  (Return [item],
   [ EvAcquire; EvGetEntity (SearchHashtags.group_id args);
     EvIterMessages
       (IterMessagesArgs.mk (Resolved (SearchHashtags.group_id args)) None None);
     EvWriteFile (export_path args)
       (if String.eqb (SearchHashtags.output_format args) "csv"
        then CsvDoc ["date"; "user_id"; "username"; "message"; "hashtag"] []
        else TxtDoc []);
     EvRelease ]).
Proof.
  intros Htags Hacq Hentity Hit Hitems Hopen Hitem.
  rewrite search_hashtags_run, search_hashtags_try_run. simpl.
  rewrite Hacq, Hentity, Hit. simpl. unfold scan_outcome.
  rewrite (search_hashtags_scan_nothing env args items _ _ Htags Hitems). simpl.
  rewrite Hopen, Htags. unfold single_item. simpl.
  match goal with
  | |- context [text_content_without_type env ?text] =>
      change text
        with ("Successfully exported 0 messages with hashtags  to "
              +:+ SearchHashtags.output_file args
              +:+ "." +:+ SearchHashtags.output_format args)
  end.
  rewrite Hitem. unfold export_doc.
  destruct (String.eqb _ "csv"); reflexivity.
Qed.

Lemma search_hashtags_without_hashtags_witness :
  run (search_hashtags env_group search_args_no_hashtag) =
  (Return [TextContent.mk (Some "text")
             "Successfully exported 0 messages with hashtags  to intro_messages.csv"],
   [ EvAcquire; EvGetEntity (-1001234567890);
     EvIterMessages (IterMessagesArgs.mk (Resolved (-1001234567890)) None None);
     EvWriteFile "intro_messages.csv"
       (CsvDoc ["date"; "user_id"; "username"; "message"; "hashtag"] []);
     EvRelease ]).
Proof.
  apply (search_hashtags_without_hashtags env_group search_args_no_hashtag
           [text_message "Hello #Intro"; photo_message;
            text_message "no tag"; text_message "#iam new"]).
  - reflexivity.
  - reflexivity.
  - reflexivity.
  - reflexivity.
  - repeat constructor.
  - reflexivity.
  - reflexivity.
Defined.

(** X18.  With an [mcp] package that rejects a [TextContent] without
    [type], [search_hashtags] never returns: every invocation ends in a
    raised failure, also the one that has exported its file and released
    its session, since the success item cannot be built and the [except]
    clause fails on its own item in turn. *)
Theorem search_hashtags_never_returns_without_default_type env args :
  (forall text, exists e,
     text_content_without_type env text = Raise e /\ is_Exception e = true) ->
  exists e, fst (run (search_hashtags env args)) = Raise e.
Proof.
  intros Hrejects.
  assert (Hcaught : forall e0, exists e, search_hashtags_caught env e0 = Raise e).
  { intros e0. unfold search_hashtags_caught, single_item.
    destruct (is_Exception e0); [|exists e0; reflexivity].
    destruct (Hrejects ("Error searching hashtags: " +:+ exn_str e0)) as (e & -> & _).
    exists e. reflexivity. }
  rewrite search_hashtags_run, search_hashtags_try_run. simpl.
  destruct (acquire_failure env); [apply Hcaught|].
  destruct (get_entity_failure env _); [apply Hcaught|].
  destruct (scan_outcome env args _) as [st|e0]; [|apply Hcaught].
  destruct (failure _); [apply Hcaught|].
  destruct (open_failure env _); [apply Hcaught|].
  simpl. unfold single_item.
  destruct (Hrejects ("Successfully exported " +:+ str_int (snd st)
                      +:+ " messages with hashtags "
                      +:+ str_join ", " (SearchHashtags.hashtags args)
                      +:+ " to " +:+ SearchHashtags.output_file args
                      +:+ "." +:+ SearchHashtags.output_format args))
    as (e & -> & _).
  apply Hcaught.
Qed.

Lemma search_hashtags_never_returns_without_default_type_witness :
  exists e,
    fst (run (search_hashtags env_group_strict search_args)) = Raise e
    /\ released (snd (run (search_hashtags env_group_strict search_args))) = 1%nat.
Proof.
  destruct (search_hashtags_never_returns_without_default_type env_group_strict
              search_args) as [e He].
  - intros text. exists type_missing. split; reflexivity.
  - exists e. split; [exact He|]. vm_compute. reflexivity.
Defined.

(** ** The substring test *)

Lemma prefix_append (needle hay : string) :
  String.prefix needle hay = true <-> exists post, hay = needle +:+ post.
Proof.
  revert hay. induction needle as [|c needle IH]; intros hay.
  - split; [intros _; exists hay; reflexivity|]. intros _. destruct hay; reflexivity.
  - destruct hay as [|d hay]; simpl.
    + split; [discriminate|]. intros [post Hpost]. discriminate.
    + destruct (Ascii.ascii_dec c d) as [<-|Hne].
      * rewrite IH. split; intros [post Hpost]; exists post.
        -- rewrite Hpost. reflexivity.
        -- injection Hpost as ->. reflexivity.
      * split; [discriminate|]. intros [post Hpost]. injection Hpost as <- _.
        contradiction.
Qed.

Lemma str_contains_empty (needle : string) :
  str_contains needle "" = String.prefix needle "".
Proof. unfold str_contains. apply orb_false_r. Qed.

Lemma str_contains_String (needle : string) c (hay : string) :
  str_contains needle (String c hay) =
  String.prefix needle (String c hay) || str_contains needle hay.
Proof. reflexivity. Qed.

(** X16.  The test [needle in hay] that [search_hashtags] applies to the
    lowered hashtag and text holds exactly when the needle occurs in the
    text: the text is some prefix, the needle, and some suffix.  In
    particular the empty hashtag occurs in every text. *)
Theorem str_contains_occurrence (needle hay : string) :
  str_contains needle hay = true <->
  exists pre post, hay = pre +:+ needle +:+ post.
Proof.
  split.
  - induction hay as [|c hay IH].
    + rewrite str_contains_empty. intros Hprefix. apply prefix_append in Hprefix.
      destruct Hprefix as [post Hpost]. exists "", post. exact Hpost.
    + rewrite str_contains_String. intros Hor. apply orb_true_iff in Hor.
      destruct Hor as [Hprefix|Hrest].
      * apply prefix_append in Hprefix. destruct Hprefix as [post Hpost].
        exists "", post. exact Hpost.
      * destruct (IH Hrest) as (pre & post & ->).
        exists (String c pre), post. reflexivity.
  - intros (pre & post & ->). induction pre as [|c pre IH].
    + assert (Hprefix : String.prefix needle (needle +:+ post) = true)
        by (apply prefix_append; exists post; reflexivity).
      change ("" +:+ needle +:+ post) with (needle +:+ post).
      destruct (needle +:+ post) as [|d rest].
      * rewrite str_contains_empty. exact Hprefix.
      * rewrite str_contains_String, Hprefix. reflexivity.
    + change (String c pre +:+ needle +:+ post)
        with (String c (pre +:+ needle +:+ post)).
      rewrite str_contains_String, IH. apply orb_true_r.
Qed.

(** ** Descriptors and argument construction *)

(** X17.  The descriptor of a registered class leads back to the class:
    [tool_args], given the descriptor that [tool_description] derives from
    one of the three registered classes, calls that very class with the
    arguments given. *)
Theorem tool_args_of_tool_description
    (Object : Type) (call : PyObj -> CallArgs -> Outcome Object) cls tool args :
  In cls registered_classes ->
  tool_description cls = Return tool ->
  tool_args Object call tool args = call (ModuleClass cls) args.
Proof.
  intros Hcls [= <-]. unfold tool_args. simpl Tool.name.
  simpl in Hcls. destruct Hcls as [<-|[<-|[<-|[]]]].
  - replace (module_dict !! __name__ ListDialogs_cls)
      with (Some (ModuleClass ListDialogs_cls)) by (vm_compute; reflexivity).
    reflexivity.
  - replace (module_dict !! __name__ ListMessages_cls)
      with (Some (ModuleClass ListMessages_cls)) by (vm_compute; reflexivity).
    reflexivity.
  - replace (module_dict !! __name__ SearchHashtags_cls)
      with (Some (ModuleClass SearchHashtags_cls)) by (vm_compute; reflexivity).
    reflexivity.
Qed.

Lemma tool_args_of_tool_description_witness :
  tool_args (PyObj * CallArgs) echo_call
    (Tool.mk "ListMessages" (Some ListMessages_doc) (model_json_schema ListMessages_cls))
    (mkCallArgs [] [("dialog_id", VInt 42)])
  = Return (ModuleClass ListMessages_cls, mkCallArgs [] [("dialog_id", VInt 42)]).
Proof.
  apply (tool_args_of_tool_description (PyObj * CallArgs) echo_call ListMessages_cls).
  - simpl. tauto.
  - reflexivity.
Defined.
